(** * Letterboxd scraper: a shallow embedding of [letterboxd_scraper.py]

    The development follows the source file top to bottom:

    - [PyStr]: the Python string and number primitives the scraper calls
      ([str.strip], [str.split], [in], [int], [str] of a float, the three
      regular expressions);
    - [Bs4]: the part of the BeautifulSoup tree interface the scraper
      queries ([find], [find_all], [find_parent], [get], [get_text]);
    - [Csv]: [csv.DictWriter] with the default dialect;
    - the class [LetterboxdScraper] itself, as state-passing code over an
      explicit world (network log, sleeps, files) in a monad that keeps the
      state when an exception is raised, as Python does.

    Characters are code points below 256 (Rocq's [ascii]); [print] calls
    are left out (they only report progress). *)

From Stdlib Require Import String Ascii List ZArith NArith Lia Bool DecimalString.
From Stdlib Require DecimalZ.
Import ListNotations.
Open Scope string_scope.
Open Scope list_scope.
Open Scope Z_scope.

Infix "+++" := String.append (right associativity, at level 60).

(* ===================================================================== *)
(** * Python strings and numbers *)
(* ===================================================================== *)

Module PyStr.

(** [str.isspace] on one character, which is also what [str.strip()] removes
    and what [\s] matches: TAB..CR, FS..US, space, NEL and NBSP. *)
Definition isspace (c : ascii) : bool :=
  let n := N_of_ascii c in
  (((9 <=? n) && (n <=? 13)) || ((28 <=? n) && (n <=? 32))
   || (n =? 133) || (n =? 160))%N.

(** [\d] and the digits [int] reads. *)
Definition isdecimal (c : ascii) : bool :=
  let n := N_of_ascii c in ((48 <=? n) && (n <=? 57))%N.

Definition digit_value (c : ascii) : Z := Z.of_N (N_of_ascii c) - 48.

(** The double quote and the no-break space, by code point. *)
Definition dquote : ascii := ascii_of_N 34.
Definition nbsp : ascii := ascii_of_N 160.

Fixpoint lstrip_with (p : ascii -> bool) (s : string) : string :=
  match s with
  | EmptyString => EmptyString
  | String c s' => if p c then lstrip_with p s' else s
  end.

Fixpoint rstrip_with (p : ascii -> bool) (s : string) : string :=
  match s with
  | EmptyString => EmptyString
  | String c s' =>
      match rstrip_with p s' with
      | EmptyString => if p c then EmptyString else String c EmptyString
      | r => String c r
      end
  end.

Definition strip_with (p : ascii -> bool) (s : string) : string :=
  rstrip_with p (lstrip_with p s).

(** [s.strip()] *)
Definition strip : string -> string := strip_with isspace.

(** [s.strip(chars)] with a one-character [chars], as in [strip('/')]. *)
Definition strip_char (ch : ascii) : string -> string :=
  strip_with (Ascii.eqb ch).

(** [s.split(sep)] with a one-character separator: never the empty list. *)
Fixpoint split (sep : ascii) (s : string) : list string :=
  match s with
  | EmptyString => [EmptyString]
  | String c s' =>
      if Ascii.eqb c sep then EmptyString :: split sep s'
      else match split sep s' with
           | seg :: rest => String c seg :: rest
           | [] => [String c EmptyString]
           end
  end.

(** [sub in s] *)
Fixpoint contains (sub s : string) : bool :=
  String.prefix sub s
  || match s with
     | EmptyString => false
     | String _ s' => contains sub s'
     end.

(** [s.startswith(p)] *)
Definition startswith (p s : string) : bool := String.prefix p s.

(** [s.replace(old, new)] with a one-character [old]. *)
Fixpoint replace (old : ascii) (new : string) (s : string) : string :=
  match s with
  | EmptyString => EmptyString
  | String c s' =>
      if Ascii.eqb c old then new +++ replace old new s'
      else String c (replace old new s')
  end.

(** [sep.join(parts)] *)
Definition join (sep : string) (parts : list string) : string :=
  String.concat sep parts.

(** [str(n)] for an [int]. *)
Definition str_int (n : Z) : string := NilZero.string_of_int (Z.to_int n).

(** ** [int(s)]

    [int] skips white space at both ends (the ASCII white space, and NEL
    and NBSP which it first turns into spaces; FS..US are not skipped),
    reads an optional sign and then decimal digits, with single
    underscores allowed between digits. More than [max_digits] digits are
    refused when that interpreter limit is not 0. *)

Definition int_isspace (c : ascii) : bool :=
  let n := N_of_ascii c in
  (((9 <=? n) && (n <=? 13)) || (n =? 32) || (n =? 133) || (n =? 160))%N.

Fixpoint int_digits (acc : Z) (count : nat) (after_digit : bool) (s : string)
  : option (Z * nat) :=
  match s with
  | EmptyString => if after_digit then Some (acc, count) else None
  | String c s' =>
      if isdecimal c then
        int_digits (10 * acc + digit_value c) (S count) true s'
      else if Ascii.eqb c "_" then
        if after_digit then int_digits acc count false s' else None
      else None
  end.

Definition int_unsigned (max_digits : nat) (s : string) : option Z :=
  match int_digits 0 0 false s with
  | Some (v, count) =>
      if negb (Nat.eqb max_digits 0) && Nat.ltb max_digits count
      then None else Some v
  | None => None
  end.

Definition int (max_digits : nat) (s : string) : option Z :=
  match strip_with int_isspace s with
  | String "-" digits => option_map Z.opp (int_unsigned max_digits digits)
  | String "+" digits => int_unsigned max_digits digits
  | digits => int_unsigned max_digits digits
  end.

(** ** [str(v / 2.0)]

    For [|v| <= 2^53] the conversion of [v] to a float and the division
    are exact and the quotient is below 1e16, so [repr] prints it in
    positional notation with one decimal: [.0] or [.5]. Beyond that range
    the result depends on rounding and on the exponent format (or is an
    [OverflowError]); it is left to [big], [None] standing for the
    error. *)
Definition str_half (big : Z -> option string) (v : Z) : option string :=
  if Z.abs v <=? 2 ^ 53 then
    Some ((if v <? 0 then "-" else "")
          +++ str_int (Z.abs v / 2)
          +++ (if Z.even v then ".0" else ".5"))
  else big v.

(** ** The regular expressions of [get_movie_details]

    Each pattern is a run of one character class followed by a fixed tail,
    so [re.search] amounts to a left-to-right scan for the first run where
    the tail matches: the greedy run cannot give characters back, since
    what follows it belongs to another class. *)

Fixpoint span_with (p : ascii -> bool) (s : string) : string * string :=
  match s with
  | EmptyString => (EmptyString, EmptyString)
  | String c s' =>
      if p c then let (run, rest) := span_with p s' in (String c run, rest)
      else (EmptyString, s)
  end.

(** [re.search(r'([\d,]+)', s)], group 1. *)
Fixpoint search_digits_commas (s : string) : option string :=
  match s with
  | EmptyString => None
  | String c s' =>
      if isdecimal c || Ascii.eqb c ","
      then Some (fst (span_with (fun x => isdecimal x || Ascii.eqb x ",") s))
      else search_digits_commas s'
  end.

(** [\s+out of] at the head of [s]. *)
Definition spaces_then_out_of (s : string) : bool :=
  let (ws, rest) := span_with isspace s in
  negb (String.eqb ws "") && String.prefix "out of" rest.

(** [re.search(r'([\d.]+)\s+out of', s)], group 1. [in_run] tells that the
    previous character belonged to a run that was already tried. *)
Fixpoint search_out_of_from (in_run : bool) (s : string) : option string :=
  match s with
  | EmptyString => None
  | String c s' =>
      if isdecimal c || Ascii.eqb c "." then
        if in_run then search_out_of_from true s'
        else
          let (run, rest) :=
            span_with (fun x => isdecimal x || Ascii.eqb x ".") s in
          if spaces_then_out_of rest then Some run
          else search_out_of_from true s'
      else search_out_of_from false s'
  end.

Definition search_out_of : string -> option string := search_out_of_from false.

End PyStr.

(* ===================================================================== *)
(** * The BeautifulSoup tree *)
(* ===================================================================== *)

Module Bs4.

(** A tag carries its name, the tokens of its [class] attribute (bs4 keeps
    [class] as a list; the list is empty when the attribute is missing),
    its other attributes as a dictionary of strings, and its children in
    document order. [Comment] stands for every string kind that
    [get_text] skips. *)
Inductive Tag : Type :=
| mkTag (name : string) (classes : list string)
        (attrs : list (string * string)) (contents : list Child)
with Child : Type :=
| ChildTag (t : Tag)
| NavigableString (s : string)
| Comment (s : string).

Definition name (t : Tag) : string := let (n, _, _, _) := t in n.
Definition classes (t : Tag) : list string := let (_, c, _, _) := t in c.
Definition attrs (t : Tag) : list (string * string) := let (_, _, a, _) := t in a.
Definition contents (t : Tag) : list Child := let (_, _, _, c) := t in c.

(** A tag as the program holds it: the node and its chain of ancestors,
    nearest first (bs4's [.parents]). *)
Record Element : Type := mkElement { tag : Tag; parents : list Tag }.

(** The object [BeautifulSoup(...)] returns: the root, with no parent. *)
Definition soup_of (root : Tag) : Element := mkElement root [].

(** [.descendants], tags only, in document order. *)
Fixpoint elements_under (anc : list Tag) (t : Tag) : list Element :=
  (fix walk (cs : list Child) : list Element :=
     match cs with
     | [] => []
     | ChildTag u :: cs' =>
         mkElement u (t :: anc) :: elements_under (t :: anc) u ++ walk cs'
     | _ :: cs' => walk cs'
     end) (contents t).

Definition descendants (e : Element) : list Element :=
  elements_under (parents e) (tag e).

(** [e.find_all(...)], the keyword filters being the predicate [p]. *)
Definition find_all (p : Tag -> bool) (e : Element) : list Element :=
  filter (fun x => p (tag x)) (descendants e).

(** [e.find(...)]: the first result of [find_all], or [None]. *)
Definition find (p : Tag -> bool) (e : Element) : option Element :=
  hd_error (find_all p e).

Fixpoint first_parent (nm : string) (ps : list Tag) : option Element :=
  match ps with
  | [] => None
  | p :: ps' =>
      if String.eqb (name p) nm then Some (mkElement p ps')
      else first_parent nm ps'
  end.

(** [e.find_parent(nm)]: the nearest ancestor of that name. *)
Definition find_parent (nm : string) (e : Element) : option Element :=
  first_parent nm (parents e).

Fixpoint lookup (key : string) (d : list (string * string)) : option string :=
  match d with
  | [] => None
  | (k, v) :: d' => if String.eqb k key then Some v else lookup key d'
  end.

(** [e.get(key, default)] for an attribute other than [class]. *)
Definition get (key default : string) (e : Element) : string :=
  match lookup key (attrs (tag e)) with
  | Some v => v
  | None => default
  end.

(** [e.get('class', [])] *)
Definition get_class (e : Element) : list string := classes (tag e).

(** The strings [get_text] collects, in document order. *)
Fixpoint strings (t : Tag) : list string :=
  (fix walk (cs : list Child) : list string :=
     match cs with
     | [] => []
     | ChildTag u :: cs' => strings u ++ walk cs'
     | NavigableString s :: cs' => s :: walk cs'
     | Comment _ :: cs' => walk cs'
     end) (contents t).

(** [e.text], that is [e.get_text()]. *)
Definition text (e : Element) : string := PyStr.join "" (strings (tag e)).

(** [e.get_text(strip=True)]: every string stripped, the empty ones
    dropped. *)
Definition get_text_strip (e : Element) : string :=
  PyStr.join ""
    (filter (fun s => negb (String.eqb s ""))
            (map PyStr.strip (strings (tag e)))).

(** ** Filters of [find] and [find_all] *)

(** first positional argument: the tag name *)
Definition named (nm : string) (t : Tag) : bool := String.eqb (name t) nm.

(** [class_='c']: some class token is [c]. (bs4 also tries the tokens
    joined by spaces, which adds nothing for a [c] without a space.) *)
Definition has_class (c : string) (t : Tag) : bool :=
  existsb (String.eqb c) (classes t).

(** [class_=re.compile(pat)] for a literal [pat] without a space: the
    pattern is searched in every token. *)
Definition class_search (pat : string) (t : Tag) : bool :=
  existsb (PyStr.contains pat) (classes t).

(** [attrs={key: True}] *)
Definition has_attr (key : string) (t : Tag) : bool :=
  match lookup key (attrs t) with Some _ => true | None => false end.

(** [attrs={key: v}] *)
Definition attr_is (key v : string) (t : Tag) : bool :=
  match lookup key (attrs t) with
  | Some v' => String.eqb v' v
  | None => false
  end.

(** [key=re.compile(pat)] for a literal [pat] *)
Definition attr_search (key pat : string) (t : Tag) : bool :=
  match lookup key (attrs t) with
  | Some v => PyStr.contains pat v
  | None => false
  end.

End Bs4.

(* ===================================================================== *)
(** * [csv.DictWriter], default dialect *)
(* ===================================================================== *)

Module Csv.

Definition cr : ascii := ascii_of_N 13.
Definition lf : ascii := ascii_of_N 10.
Definition lineterminator : string := String cr (String lf EmptyString).

(** A field is quoted when it holds the delimiter, the quote character or
    a character of the line terminator; quotes inside are doubled. *)
Definition special (c : ascii) : bool :=
  Ascii.eqb c "," || Ascii.eqb c PyStr.dquote || Ascii.eqb c cr || Ascii.eqb c lf.

Fixpoint needs_quotes (s : string) : bool :=
  match s with
  | EmptyString => false
  | String c s' => special c || needs_quotes s'
  end.

Definition quoted (s : string) : string :=
  String PyStr.dquote
    (PyStr.replace PyStr.dquote
       (String PyStr.dquote (String PyStr.dquote EmptyString)) s
     +++ String PyStr.dquote EmptyString).

Definition field (s : string) : string :=
  if needs_quotes s then quoted s else s.

(** [writer.writerow(fields)]: the line written. A row made of one empty
    field is written as a pair of quotes. *)
Definition writerow (fields : list string) : string :=
  match fields with
  | [EmptyString] => quoted EmptyString +++ lineterminator
  | _ => PyStr.join "," (map field fields) +++ lineterminator
  end.

Definition dict : Type := list (string * string).

Definition keys (d : dict) : list string := map fst d.

Definition mem (k : string) (l : list string) : bool := existsb (String.eqb k) l.

(** [DictWriter._dict_to_list] with [extrasaction='raise'] and
    [restval='']: [None] is the [ValueError] for a key that is not a
    field name. *)
Definition dict_to_list (fieldnames : list string) (rowdict : dict)
  : option (list string) :=
  if forallb (fun k => mem k fieldnames) (keys rowdict) then
    Some (map (fun key => match Bs4.lookup key rowdict with
                          | Some v => v
                          | None => ""
                          end) fieldnames)
  else None.

(** [DictWriter.writeheader()] *)
Definition writeheader (fieldnames : list string) : string :=
  writerow fieldnames.

(** [DictWriter.writerows(rows)]: the text written and whether every row
    went through ([false]: a [ValueError] stopped the writing there). *)
Fixpoint writerows (fieldnames : list string) (rows : list dict)
  : string * bool :=
  match rows with
  | [] => (EmptyString, true)
  | r :: rows' =>
      match dict_to_list fieldnames r with
      | None => (EmptyString, false)
      | Some fields =>
          let (out, ok) := writerows fieldnames rows' in
          (writerow fields +++ out, ok)
      end
  end.

End Csv.

(* ===================================================================== *)
(** * Exceptions, results and the world *)
(* ===================================================================== *)

(** The exception classes the program meets. The first three are the
    subclasses of [requests.exceptions.RequestException]; all but
    [KeyboardInterrupt] derive from [Exception]. *)
Inductive exn : Type :=
| Timeout
| ConnectionError
| HTTPError (status : Z)
| ParserRejectedMarkup
| ValueError
| IndexError
| OverflowError
| OSError
| KeyboardInterrupt.

(** [isinstance(e, requests.exceptions.RequestException)] *)
Definition is_RequestException (e : exn) : bool :=
  match e with
  | Timeout | ConnectionError | HTTPError _ => true
  | _ => false
  end.

(** [isinstance(e, Exception)] *)
Definition is_Exception (e : exn) : bool :=
  match e with
  | KeyboardInterrupt => false
  | _ => true
  end.

(** [isinstance(e, KeyboardInterrupt)] *)
Definition is_KeyboardInterrupt (e : exn) : bool :=
  match e with
  | KeyboardInterrupt => true
  | _ => false
  end.

(** What evaluating an expression gives: a value, or an exception. *)
Inductive Res (A : Type) : Type :=
| Ret (a : A)
| Raise (e : exn).
Arguments Ret {A} a.
Arguments Raise {A} e.

Definition bindR {A B : Type} (r : Res A) (k : A -> Res B) : Res B :=
  match r with
  | Ret a => k a
  | Raise e => Raise e
  end.

Notation "x <-? r ;; k" := (bindR r (fun x => k))
  (at level 61, r at next level, right associativity).

(** [l[i]] and [l[-1]] *)
Definition item {A : Type} (l : list A) (i : nat) : Res A :=
  match nth_error l i with
  | Some a => Ret a
  | None => Raise IndexError
  end.

Definition last_item {A : Type} (l : list A) : Res A :=
  match rev l with
  | a :: _ => Ret a
  | [] => Raise IndexError
  end.

(** [requests.Response], as far as the program reads it. *)
Record Response : Type := mkResponse { status_code : Z; content : string }.

(** The environment of one run: everything the program does not decide.
    - [requests_get n url]: what the call [requests.get(url, ...)] gives
      when [n] requests were made before it;
    - [html_parser body]: the root [BeautifulSoup(body, 'html.parser')]
      builds, or the exception it raises;
    - [time_sleep n]: whether the sleep that follows [n] earlier ones
      returns or is interrupted;
    - [open_w name]: whether [open(name, 'w', ...)] succeeds;
    - [strftime_now]: the clock, formatted with [%Y%m%d_%H%M%S];
    - [int_max_str_digits]: the interpreter's limit on [int(str)];
    - [float_str_big]: [str(v / 2.0)] beyond the exact range. *)
Record Env : Type := mkEnv {
  requests_get : nat -> string -> Res Response;
  html_parser : string -> Res Bs4.Tag;
  time_sleep : nat -> Res unit;
  open_w : string -> Res unit;
  strftime_now : string;
  int_max_str_digits : nat;
  float_str_big : Z -> option string
}.

(** One row of the result: the dictionary built in [scrape_section]. *)
Record Movie : Type := mkMovie {
  movie_id : string;
  movie_username : string;
  movie_name : string;
  year : string;
  genres : string;
  rating : string;
  popularity : string;
  vote_average : string;
  vote_count : string
}.

(** The dictionary [get_movie_details] returns. *)
Record Details : Type := mkDetails {
  d_movie_name : string;
  d_year : string;
  d_genres : string;
  d_vote_average : string;
  d_vote_count : string;
  d_popularity : string
}.

(** The scraper object ([username], [movies_data]; [base_url] and
    [headers] are constants) together with the trace of what the program
    did to the world: the URLs requested, oldest first, the sleeps in
    milliseconds, and the files written. *)
Record State : Type := mkState {
  username : string;
  movies_data : list Movie;
  requests : list string;
  sleeps : list Z;
  files : list (string * string)
}.

Definition base_url : string := "https://letterboxd.com".

(** The state after a request, a sleep, an append to [movies_data], and
    with a file's content set. *)
Definition log_request (url : string) (s : State) : State :=
  mkState (username s) (movies_data s) (requests s ++ [url])
          (sleeps s) (files s).

Definition log_sleep (ms : Z) (s : State) : State :=
  mkState (username s) (movies_data s) (requests s)
          (sleeps s ++ [ms]) (files s).

Definition add_movie (m : Movie) (s : State) : State :=
  mkState (username s) (movies_data s ++ [m]) (requests s)
          (sleeps s) (files s).

Definition put_file (filename text : string) (s : State) : State :=
  mkState (username s) (movies_data s) (requests s) (sleeps s)
          ((filename, text) :: files s).

(** [LetterboxdScraper(username)] in a fresh world. *)
Definition init (user : string) : State := mkState user [] [] [] [].

(** ** The monad: state kept on both outcomes *)

Definition M (A : Type) : Type := State -> Res A * State.

Definition ret {A : Type} (a : A) : M A := fun s => (Ret a, s).

Definition raise {A : Type} (e : exn) : M A := fun s => (Raise e, s).

Definition bind {A B : Type} (m : M A) (k : A -> M B) : M B :=
  fun s =>
    match m s with
    | (Ret a, s') => k a s'
    | (Raise e, s') => (Raise e, s')
    end.

Notation "x <- m ;; k" := (bind m (fun x => k))
  (at level 61, m at next level, right associativity).
Notation "m ;;; k" := (bind m (fun _ => k))
  (at level 61, right associativity).

Definition lift {A : Type} (r : Res A) : M A := fun s => (r, s).

Definition get_self : M State := fun s => (Ret s, s).

(** [try: body except <classes>: handler] *)
Definition try_except {A : Type} (body : M A) (classes : exn -> bool)
  (handler : M A) : M A :=
  fun s =>
    match body s with
    | (Raise e, s') => if classes e then handler s' else (Raise e, s')
    | r => r
    end.

(** [for x in l: body x] *)
Fixpoint for_each {A : Type} (l : list A) (body : A -> M unit) : M unit :=
  match l with
  | [] => ret tt
  | x :: l' => body x ;;; for_each l' body
  end.

(** [range(1, n + 1)] *)
Definition range_from_1 (n : Z) : list Z :=
  map Z.of_nat (seq 1 (Z.to_nat n)).

(* ===================================================================== *)
(** * class LetterboxdScraper *)
(* ===================================================================== *)

Section LetterboxdScraper.

Variable env : Env.

(** ** Primitive effects *)

(** [requests.get(url, headers=self.headers, timeout=10)]: the request is
    logged whatever its outcome. *)
Definition http_get (url : string) : M Response :=
  fun s => (requests_get env (length (requests s)) url, log_request url s).

(** [response.raise_for_status()]: [HTTPError] for a 4xx or 5xx status. *)
Definition raise_for_status (r : Response) : M unit :=
  if (400 <=? status_code r) && (status_code r <? 600)
  then raise (HTTPError (status_code r))
  else ret tt.

(** [BeautifulSoup(body, 'html.parser')] *)
Definition BeautifulSoup (body : string) : M Bs4.Element :=
  root <- lift (html_parser env body) ;; ret (Bs4.soup_of root).

(** [time.sleep(ms / 1000)] *)
Definition sleep (ms : Z) : M unit :=
  fun s => (time_sleep env (length (sleeps s)), log_sleep ms s).

(** [self.movies_data.append(m)] *)
Definition append_movie (m : Movie) : M unit :=
  fun s => (Ret tt, add_movie m s).

(** [int(s)] and [str(v / 2.0)] with their exceptions. *)
Definition py_int (s : string) : Res Z :=
  match PyStr.int (int_max_str_digits env) s with
  | Some v => Ret v
  | None => Raise ValueError
  end.

Definition py_str_half (v : Z) : Res string :=
  match PyStr.str_half (float_str_big env) v with
  | Some s => Ret s
  | None => Raise OverflowError
  end.

(** ** [get_page] *)

Definition get_page (url : string) : M (option Bs4.Element) :=
  try_except
    (response <- http_get url ;;
     raise_for_status response ;;;
     soup <- BeautifulSoup (content response) ;;
     ret (Some soup))
    is_RequestException
    (ret None).

(** ** [get_num_pages] *)

Definition section_url (user section : string) : string :=
  if String.eqb section "likes/films"
  then base_url +++ "/" +++ user +++ "/likes/films/"
  else base_url +++ "/" +++ user +++ "/" +++ section +++ "/".

(** What [get_num_pages] reads in the page it fetched. The [try] covers
    [int(page_links[-1].text.strip())]; its bare [except] gives 1. *)
Definition num_pages_of (soup : Bs4.Element) : Z :=
  match Bs4.find (fun t => Bs4.named "div" t && Bs4.has_class "pagination" t)
                 soup with
  | Some pagination =>
      let page_links :=
        Bs4.find_all
          (fun t => Bs4.named "li" t && Bs4.has_class "paginate-page" t)
          pagination in
      match page_links with
      | [] => 1
      | _ :: _ =>
          match (l <-? last_item page_links ;;
                 py_int (PyStr.strip (Bs4.text l))) with
          | Ret n => n
          | Raise _ => 1
          end
      end
  | None => 1
  end.

Definition get_num_pages (section : string) : M Z :=
  self <- get_self ;;
  soup <- get_page (section_url (username self) section) ;;
  match soup with
  | None => ret 1
  | Some soup => ret (num_pages_of soup)
  end.

(** ** [get_movie_details] *)

Definition extract_movie_name (soup : Bs4.Element) : string :=
  match Bs4.find (fun t => Bs4.named "h1" t && Bs4.has_class "headline-1" t)
                 soup with
  | Some title_elem =>
      PyStr.replace PyStr.nbsp " " (Bs4.get_text_strip title_elem)
  | None => "N/A"
  end.

Definition extract_year (soup : Bs4.Element) : string :=
  match Bs4.find (fun t => Bs4.named "small" t && Bs4.has_class "number" t)
                 soup with
  | Some year_elem => PyStr.strip (Bs4.text year_elem)
  | None => "N/A"
  end.

Definition extract_genres (soup : Bs4.Element) : string :=
  match Bs4.find_all
          (fun t => Bs4.named "a" t && Bs4.attr_search "href" "/films/genre/" t)
          soup with
  | [] => "N/A"
  | genre_links =>
      PyStr.join ", " (map (fun g => PyStr.strip (Bs4.text g)) genre_links)
  end.

Definition extract_vote_average (soup : Bs4.Element) : string :=
  match Bs4.find
          (fun t => Bs4.named "meta" t && Bs4.attr_is "name" "twitter:data2" t)
          soup with
  | Some rating_meta =>
      match PyStr.search_out_of (Bs4.get "content" "" rating_meta) with
      | Some g1 => g1
      | None => "N/A"
      end
  | None => "N/A"
  end.

Definition extract_vote_count (soup : Bs4.Element) : string :=
  match Bs4.find
          (fun t => Bs4.named "a" t
                    && Bs4.attr_search "href" "rating-histogram" t)
          soup with
  | Some histogram_link =>
      match PyStr.search_digits_commas (Bs4.get_text_strip histogram_link) with
      | Some g1 => PyStr.replace "," "" g1
      | None => "N/A"
      end
  | None => "N/A"
  end.

Definition extract_popularity (soup : Bs4.Element) : string :=
  match Bs4.find
          (fun t => Bs4.named "a" t && Bs4.has_class "has-icon" t
                    && Bs4.attr_search "href" "/fans/" t)
          soup with
  | Some fans_link =>
      match PyStr.search_digits_commas (Bs4.get_text_strip fans_link) with
      | Some g1 => PyStr.replace "," "" g1
      | None => "0"
      end
  | None => "0"
  end.

(** The dictionary filled between [details = {}] and [return details]. *)
Definition details_of (soup : Bs4.Element) : Details :=
  mkDetails (extract_movie_name soup) (extract_year soup)
            (extract_genres soup) (extract_vote_average soup)
            (extract_vote_count soup) (extract_popularity soup).

Definition get_movie_details (movie_url : string) : M (option Details) :=
  try_except
    (soup <- get_page movie_url ;;
     match soup with
     | None => ret None
     | Some soup => ret (Some (details_of soup))
     end)
    is_Exception
    (ret None).

(** ** [extract_user_rating] *)

(** The body of the [try] in the loop over the classes. *)
Definition decode_rated (cls : string) : Res string :=
  seg <-? item (PyStr.split "-" cls) 1 ;;
  rating_value <-? py_int seg ;;
  py_str_half rating_value.

(** [for cls in classes: ...]: [Some] is a [return] from inside the loop,
    [None] the loop running to its end; the bare [except: pass] goes on
    with the next class. *)
Fixpoint rated_loop (classes : list string) : option string :=
  match classes with
  | [] => None
  | cls :: rest =>
      if PyStr.startswith "rated-" cls then
        match decode_rated cls with
        | Ret s => Some s
        | Raise _ => rated_loop rest
        end
      else rated_loop rest
  end.

Definition extract_user_rating (poster_div : Bs4.Element) : Res string :=
  match Bs4.find_parent "li" poster_div with
  | Some parent =>
      match Bs4.find
              (fun t => Bs4.named "span" t && Bs4.class_search "rated-" t)
              parent with
      | Some rating_span =>
          match rated_loop (Bs4.get_class rating_span) with
          | Some r => Ret r
          | None => Ret "Not Rated"
          end
      | None => Ret "Not Rated"
      end
  | None => Ret "Not Rated"
  end.

(** ** [scrape_section] *)

Definition page_url (user section : string) (page : Z) : string :=
  if String.eqb section "likes/films"
  then base_url +++ "/" +++ user +++ "/likes/films/page/"
       +++ PyStr.str_int page +++ "/"
  else base_url +++ "/" +++ user +++ "/" +++ section +++ "/page/"
       +++ PyStr.str_int page +++ "/".

Definition film_url (movie_slug : string) : string :=
  base_url +++ "/film/" +++ movie_slug +++ "/".

(** [target_link.strip('/').split('/')[-1]] *)
Definition slug_of (target_link : string) : Res string :=
  last_item (PyStr.split "/" (PyStr.strip_char "/" target_link)).

(** [any(m['movie_id'] == movie_slug for m in self.movies_data)] *)
Definition already_scraped (movie_slug : string) (data : list Movie) : bool :=
  existsb (fun m => String.eqb (movie_id m) movie_slug) data.

(** The dictionary literal [movie_data]. *)
Definition merge (movie_slug user user_rating : string) (d : Details) : Movie :=
  mkMovie movie_slug user (d_movie_name d) (d_year d) (d_genres d)
          user_rating (d_popularity d) (d_vote_average d) (d_vote_count d).

(** The body of [for item in movie_items]. Each [continue] is a [ret tt]
    that skips the rest of the body, the sleep included.
    [movie_name_preview] and the counter [movies_found] only feed [print]
    and are left out with it. *)
Definition scrape_item (it : Bs4.Element) : M unit :=
  let target_link := Bs4.get "data-target-link" "" it in
  if String.eqb target_link "" || negb (PyStr.contains "/film/" target_link)
  then ret tt
  else
    movie_slug <- lift (slug_of target_link) ;;
    self <- get_self ;;
    if already_scraped movie_slug (movies_data self) then ret tt
    else
      user_rating <- lift (extract_user_rating it) ;;
      movie_details <- get_movie_details (film_url movie_slug) ;;
      match movie_details with
      | Some d =>
          append_movie (merge movie_slug (username self) user_rating d)
      | None => ret tt
      end ;;;
      sleep 1500.

(** [soup.find_all('div', class_='react-component',
                   attrs={'data-target-link': True})] *)
Definition movie_items_of (soup : Bs4.Element) : list Bs4.Element :=
  Bs4.find_all
    (fun t => Bs4.named "div" t && Bs4.has_class "react-component" t
              && Bs4.has_attr "data-target-link" t)
    soup.

(** The body of [for page in range(1, total_pages + 1)]. *)
Definition scrape_page (section : string) (total_pages page : Z) : M unit :=
  self <- get_self ;;
  soup <- get_page (page_url (username self) section page) ;;
  match soup with
  | None => ret tt
  | Some soup =>
      match movie_items_of soup with
      | [] => ret tt
      | movie_items =>
          for_each movie_items scrape_item ;;;
          if page <? total_pages then sleep 2000 else ret tt
      end
  end.

(** [if max_pages: total_pages = min(total_pages, max_pages)]: [None] and
    0 are both false. *)
Definition cap_pages (total_pages : Z) (max_pages : option Z) : Z :=
  match max_pages with
  | None => total_pages
  | Some m => if m =? 0 then total_pages else Z.min total_pages m
  end.

Definition scrape_section (section : string) (max_pages : option Z)
  : M (list Movie) :=
  found <- get_num_pages section ;;
  let total_pages := cap_pages found max_pages in
  for_each (range_from_1 total_pages) (scrape_page section total_pages) ;;;
  self <- get_self ;;
  ret (movies_data self).

(** ** [scrape_all_sections] *)

Definition default_sections : list string :=
  ["films"; "reviews"; "diary"; "watchlist"; "likes/films"].

(** [for section in sections: try: ... except KeyboardInterrupt: break
    except Exception: continue] *)
Fixpoint sections_loop (sections : list string) (max_pages : option Z)
  : M unit :=
  match sections with
  | [] => ret tt
  | section :: rest =>
      fun s =>
        match scrape_section section max_pages s with
        | (Ret _, s') => sections_loop rest max_pages s'
        | (Raise e, s') =>
            if is_KeyboardInterrupt e then (Ret tt, s')
            else if is_Exception e then sections_loop rest max_pages s'
            else (Raise e, s')
        end
  end.

Definition scrape_all_sections (sections : option (list string))
  (max_pages_per_section : option Z) : M (list Movie) :=
  let sections := match sections with
                  | None => default_sections
                  | Some l => l
                  end in
  sections_loop sections max_pages_per_section ;;;
  self <- get_self ;;
  ret (movies_data self).

(** ** [save_to_csv] *)

Definition fieldnames : list string :=
  ["movie_id"; "username"; "movie_name"; "year"; "genres"; "rating";
   "popularity"; "vote_average"; "vote_count"].

(** A record of [movies_data] as the dictionary [DictWriter] receives. *)
Definition movie_dict (m : Movie) : Csv.dict :=
  [("movie_id", movie_id m); ("username", movie_username m);
   ("movie_name", movie_name m); ("year", year m); ("genres", genres m);
   ("rating", rating m); ("popularity", popularity m);
   ("vote_average", vote_average m); ("vote_count", vote_count m)].

Definition default_filename (user : string) : string :=
  user +++ "_letterboxd_" +++ strftime_now env +++ ".csv".

(** [open(filename, 'w', ...)]: the file is created empty, or truncated. *)
Definition open_file (filename : string) : M unit :=
  fun s =>
    match open_w env filename with
    | Ret _ => (Ret tt, put_file filename EmptyString s)
    | Raise e => (Raise e, s)
    end.

(** What the file system holds under a name: the latest entry. *)
Definition read_file (filename : string) (s : State) : option string :=
  Bs4.lookup filename (files s).

(** [csvfile.write(text)] *)
Definition write_file (filename text : string) : M unit :=
  fun s =>
    let old := match read_file filename s with
               | Some t => t
               | None => EmptyString
               end in
    (Ret tt, put_file filename (old +++ text) s).

Definition save_to_csv (filename : option string) : M (option string) :=
  self <- get_self ;;
  match movies_data self with
  | [] => ret None
  | _ :: _ =>
      let filename := match filename with
                      | None => default_filename (username self)
                      | Some f => f
                      end in
      try_except
        (open_file filename ;;;
         write_file filename (Csv.writeheader fieldnames) ;;;
         let (rows, ok) :=
           Csv.writerows fieldnames (map movie_dict (movies_data self)) in
         write_file filename rows ;;;
         if ok then ret (Some filename) else raise ValueError)
        is_Exception
        (ret None)
  end.

End LetterboxdScraper.

(* ===================================================================== *)
(** * Specification vocabulary *)
(* ===================================================================== *)

(** [keeps R m]: running [m] takes every state to one related to it by
    [R], whether [m] returns or raises. *)
Definition keeps (R : State -> State -> Prop) {A : Type} (m : M A) : Prop :=
  forall s, R s (snd (m s)).

(** The scraper object is untouched: same [username], same
    [movies_data]. *)
Definition same_self (s s' : State) : Prop :=
  username s' = username s /\ movies_data s' = movies_data s.

Definition ids (s : State) : list string := map movie_id (movies_data s).

(** [movies_data] only grew at its end, and kept its identifiers distinct
    if they were. *)
Definition grows (s s' : State) : Prop :=
  username s' = username s
  /\ (exists new, movies_data s' = movies_data s ++ new)
  /\ (NoDup (ids s) -> NoDup (ids s')).

Module Bs4Spec.
Import Bs4.

(** Where a tag property [P] holds among the descendants of [e], in
    document order: nowhere, first at [x], last at [x]. *)
Definition no_match (P : Tag -> Prop) (e : Element) : Prop :=
  forall y, In y (descendants e) -> ~ P (tag y).

Definition first_match (P : Tag -> Prop) (e x : Element) : Prop :=
  exists before after,
    descendants e = before ++ x :: after
    /\ P (tag x)
    /\ forall y, In y before -> ~ P (tag y).

Definition last_match (P : Tag -> Prop) (e x : Element) : Prop :=
  exists before after,
    descendants e = before ++ x :: after
    /\ P (tag x)
    /\ forall y, In y after -> ~ P (tag y).

(** The boolean filter [p] decides the property [P]. *)
Definition decides (p : Tag -> bool) (P : Tag -> Prop) : Prop :=
  forall t, p t = true <-> P t.

(** The tag properties the scraper looks for. *)
Definition tag_with_class (nm c : string) (t : Tag) : Prop :=
  name t = nm /\ In c (classes t).

End Bs4Spec.

(* ===================================================================== *)
(** * Concrete worlds and pages *)
(* ===================================================================== *)

(** A world where every request is answered 200 with a body the parser
    reads as [root], no sleep is interrupted and files can be opened. *)
Definition serving (root : Bs4.Tag) : Env :=
  mkEnv (fun _ _ => Ret (mkResponse 200 "<html>"))
        (fun _ => Ret root)
        (fun _ => Ret tt)
        (fun _ => Ret tt)
        "20240101_120000" 4300 (fun _ => None).

(** A listing page whose pagination control ends with the page link
    [last]. *)
Definition pagination_page (last : string) : Bs4.Tag :=
  Bs4.mkTag "[document]" [] []
    [Bs4.ChildTag
       (Bs4.mkTag "div" ["pagination"] []
          [Bs4.ChildTag
             (Bs4.mkTag "li" ["paginate-page"; "paginate-current"] []
                [Bs4.NavigableString "1"]);
           Bs4.ChildTag
             (Bs4.mkTag "li" ["paginate-page"] []
                [Bs4.ChildTag
                   (Bs4.mkTag "a" [] [("href", "/marwanmovies/films/page/2/")]
                      [Bs4.NavigableString last])])])].

(** ** Vocabulary for [extract_user_rating] *)

Module RatingSpec.
Import Bs4 Bs4Spec.

(** No ancestor of [e] is named [nm]; [p] is the nearest one that is. *)
Definition no_parent (nm : string) (e : Element) : Prop :=
  forall t, In t (parents e) -> name t <> nm.

Definition nearest_parent (nm : string) (e p : Element) : Prop :=
  exists skipped,
    parents e = skipped ++ tag p :: parents p
    /\ name (tag p) = nm
    /\ forall t, In t skipped -> name t <> nm.

(** A [span] with a class token in which [rated-] occurs. *)
Definition rating_indicator (t : Tag) : Prop :=
  name t = "span"
  /\ exists c, In c (classes t) /\ PyStr.contains "rated-" c = true.

(** The class token [cls] is [rated-] followed by the field [seg], which
    runs to the next dash or to the end of the token. *)
Definition encodes (cls seg : string) : Prop :=
  exists rest,
    cls = "rated-" +++ seg +++ rest
    /\ PyStr.contains "-" seg = false
    /\ (rest = "" \/ exists r, rest = String "-" r).

(** The loop passes over the token [c]: no integer can be read in its
    field, or the integer is beyond the exact range of the floats and its
    division raises. *)
Definition passed_over (env : Env) (c : string) : Prop :=
  forall seg,
    encodes c seg ->
    match PyStr.int (int_max_str_digits env) seg with
    | None => True
    | Some v => 2 ^ 53 < v /\ float_str_big env v = None
    end.

(** [r] is a decimal numeral of [v / 2]: an integer part that reads as
    the quotient of [v] by 2, then one decimal, 0 when [v] is even and 5
    when it is odd. The reader is the Standard Library's. *)
Definition numeral_of_half (v : Z) (r : string) : Prop :=
  exists whole,
    r = whole +++ (if Z.even v then ".0" else ".5")
    /\ option_map Z.of_int (NilZero.int_of_string whole) = Some (v / 2).

End RatingSpec.

(** A listing page with one poster inside a list item, whose rating span
    carries the classes [span_classes]. *)
Definition poster_tag : Bs4.Tag :=
  Bs4.mkTag "div" ["react-component"; "poster"]
    [("data-target-link", "/film/inception/"); ("data-item-name", "Inception")]
    [].

Definition rating_span (span_classes : list string) : Bs4.Tag :=
  Bs4.mkTag "span" span_classes [] [Bs4.NavigableString "stars"].

Definition viewingdata (span_classes : list string) : Bs4.Tag :=
  Bs4.mkTag "p" ["poster-viewingdata"] []
    [Bs4.ChildTag (rating_span span_classes)].

Definition poster_item (span_classes : list string) : Bs4.Tag :=
  Bs4.mkTag "li" ["poster-container"] []
    [Bs4.ChildTag poster_tag; Bs4.ChildTag (viewingdata span_classes)].

Definition poster_list (span_classes : list string) : Bs4.Tag :=
  Bs4.mkTag "ul" ["poster-list"] [] [Bs4.ChildTag (poster_item span_classes)].

Definition listing_page (span_classes : list string) : Bs4.Tag :=
  Bs4.mkTag "[document]" [] [] [Bs4.ChildTag (poster_list span_classes)].

(** The list item, the poster, the paragraph and the rating span of
    [listing_page], as the queries hand them over. *)
Definition item_of (span_classes : list string) : Bs4.Element :=
  Bs4.mkElement (poster_item span_classes)
    [poster_list span_classes; listing_page span_classes].

Definition poster_of (span_classes : list string) : Bs4.Element :=
  Bs4.mkElement poster_tag
    (poster_item span_classes :: Bs4.parents (item_of span_classes)).

Definition viewingdata_of (span_classes : list string) : Bs4.Element :=
  Bs4.mkElement (viewingdata span_classes)
    (poster_item span_classes :: Bs4.parents (item_of span_classes)).

Definition span_of (span_classes : list string) : Bs4.Element :=
  Bs4.mkElement (rating_span span_classes)
    (viewingdata span_classes :: Bs4.parents (viewingdata_of span_classes)).

(** ** Vocabulary for strings *)

Module PyStrSpec.

(** [sub] occurs somewhere in [s]. *)
Definition occurs_in (sub s : string) : Prop :=
  exists a b, s = a +++ sub +++ b.

(** Every character of [s] satisfies [p]; [s] starts, ends, with one that
    does. *)
Fixpoint all_in (p : ascii -> bool) (s : string) : Prop :=
  match s with
  | EmptyString => True
  | String c s' => p c = true /\ all_in p s'
  end.

Definition starts_in (p : ascii -> bool) (s : string) : Prop :=
  exists c r, s = String c r /\ p c = true.

Definition ends_in (p : ascii -> bool) (s : string) : Prop :=
  exists r c, s = r +++ String c "" /\ p c = true.

(** [t] is [s] without its leading and trailing characters in [p]. *)
Definition stripped (p : ascii -> bool) (s t : string) : Prop :=
  exists a b,
    s = a +++ t +++ b
    /\ all_in p a /\ all_in p b
    /\ ~ starts_in p t /\ ~ ends_in p t.

(** [seg] is the last of the fields that [sep] separates in [t]: it
    follows the last [sep] of [t], or is the whole of [t] when there is
    none. *)
Definition final_segment (sep : ascii) (t seg : string) : Prop :=
  exists pre,
    t = pre +++ seg
    /\ (pre = "" \/ exists q, pre = q +++ String sep "")
    /\ ~ occurs_in (String sep "") seg.

End PyStrSpec.

(** The slug a listing item is scraped under, if it is not discarded. *)
Definition listed_slug (it : Bs4.Element) : option string :=
  let target_link := Bs4.get "data-target-link" "" it in
  if String.eqb target_link "" || negb (PyStr.contains "/film/" target_link)
  then None
  else match slug_of target_link with
       | Ret movie_slug => Some movie_slug
       | Raise _ => None
       end.

(** ** Runs of the scraper *)

(** What a client may call on a scraper object. *)
Inductive call : Type :=
| Scrape_section (section : string) (max_pages : option Z)
| Scrape_all_sections (sections : option (list string))
                      (max_pages_per_section : option Z)
| Save_to_csv (filename : option string).

Definition run_call (env : Env) (c : call) (s : State) : State :=
  match c with
  | Scrape_section section max_pages =>
      snd (scrape_section env section max_pages s)
  | Scrape_all_sections sections max_pages =>
      snd (scrape_all_sections env sections max_pages s)
  | Save_to_csv filename => snd (save_to_csv env filename s)
  end.

(** The states of a run: the object as constructed, then after any call,
    however the call ended. *)
Inductive reachable (env : Env) : State -> Prop :=
| reach_init : forall user, reachable env (init user)
| reach_call : forall s c, reachable env s -> reachable env (run_call env c s).

(** [runs_through env max_pages sections s s']: the sections are scraped
    one after another from [s] to [s'], each call returning or raising,
    none of them interrupted. *)
Inductive runs_through (env : Env) (max_pages : option Z)
  : list string -> State -> State -> Prop :=
| through_nil : forall s, runs_through env max_pages [] s s
| through_cons : forall section rest s r s1 s2,
    scrape_section env section max_pages s = (r, s1) ->
    r <> Raise KeyboardInterrupt ->
    runs_through env max_pages rest s1 s2 ->
    runs_through env max_pages (section :: rest) s s2.

(** A world with no network: every request times out. *)
Definition offline : Env :=
  mkEnv (fun _ _ => Raise Timeout)
        (fun _ => Raise ParserRejectedMarkup)
        (fun _ => Ret tt)
        (fun _ => Ret tt)
        "20240101_120000" 4300 (fun _ => None).

(** A world where the parser rejects the pages of the reviews section and
    reads every other page as [root]. *)
Definition reviews_rejected (root : Bs4.Tag) : Env :=
  mkEnv (fun _ url =>
           if PyStr.contains "/reviews/" url
           then Ret (mkResponse 200 "<reviews")
           else Ret (mkResponse 200 "<html>"))
        (fun body =>
           if String.eqb body "<reviews" then Raise ParserRejectedMarkup
           else Ret root)
        (fun _ => Ret tt)
        (fun _ => Ret tt)
        "20240101_120000" 4300 (fun _ => None).

(** A world like [serving root] where the user interrupts the first
    sleep. *)
Definition interrupted (root : Bs4.Tag) : Env :=
  mkEnv (fun _ _ => Ret (mkResponse 200 "<html>"))
        (fun _ => Ret root)
        (fun _ => Raise KeyboardInterrupt)
        (fun _ => Ret tt)
        "20240101_120000" 4300 (fun _ => None).

(** A record scraped earlier in the run. *)
Definition heat : Movie :=
  mkMovie "heat-1995" "marwanmovies" "Heat" "1995" "Crime, Drama" "4.5"
          "12000" "4.2" "800000".

(** The record the pages above give for their one poster: the page has
    none of the detail features, so every detail is the default. *)
Definition inception (user_rating : string) : Movie :=
  mkMovie "inception" "marwanmovies" "N/A" "N/A" "N/A" user_rating
          "0" "N/A" "N/A".

(** ** Vocabulary for the detail page *)

Module DetailSpec.
Import Bs4.

Definition href_with (pat : string) (t : Tag) : Prop :=
  exists href,
    lookup "href" (attrs t) = Some href /\ PyStrSpec.occurs_in pat href.

(** The markup features [get_movie_details] reads. *)
Definition title_heading : Tag -> Prop := Bs4Spec.tag_with_class "h1" "headline-1".

Definition year_annotation : Tag -> Prop := Bs4Spec.tag_with_class "small" "number".

Definition genre_link (t : Tag) : Prop :=
  name t = "a" /\ href_with "/films/genre/" t.

Definition rating_meta (t : Tag) : Prop :=
  name t = "meta" /\ lookup "name" (attrs t) = Some "twitter:data2".

Definition histogram_link (t : Tag) : Prop :=
  name t = "a" /\ href_with "rating-histogram" t.

Definition fans_link (t : Tag) : Prop :=
  name t = "a" /\ In "has-icon" (classes t) /\ href_with "/fans/" t.

End DetailSpec.

(** A film page with a title and nothing else. *)
Definition title_only_page : Bs4.Tag :=
  Bs4.mkTag "[document]" [] []
    [Bs4.ChildTag
       (Bs4.mkTag "h1" ["headline-1"; "primaryname"] []
          [Bs4.ChildTag
             (Bs4.mkTag "span" ["name"] []
                [Bs4.NavigableString " Heat "])])].

(** ** Vocabulary for the export *)

Definition header_line : string :=
  "movie_id,username,movie_name,year,genres,rating,popularity,vote_average,vote_count"
  +++ Csv.lineterminator.

(** The line of a record: its nine values in the order of the header. *)
Definition record_line (m : Movie) : string :=
  Csv.writerow
    [movie_id m; movie_username m; movie_name m; year m; genres m; rating m;
     popularity m; vote_average m; vote_count m].

(** The file name [save_to_csv] writes to. *)
Definition destination (env : Env) (filename : option string) (s : State)
  : string :=
  match filename with
  | Some f => f
  | None => default_filename env (username s)
  end.

(** ** States of sample runs *)

Definition rated_page : Bs4.Tag := listing_page ["rating"; "-micro"; "rated-7"].

(** The scraper of [marwanmovies] holding one record from earlier. *)
Definition with_heat : State := add_movie heat (init "marwanmovies").

(** After scraping the films section of a site that serves
    [rated_page]. *)
Definition after_films : State :=
  run_call (serving rated_page) (Scrape_section "films" None)
           (init "marwanmovies").

(** A world like [serving root] where every response has the status
    [status]. *)
Definition answering (status : Z) (root : Bs4.Tag) : Env :=
  mkEnv (fun _ _ => Ret (mkResponse status "<html>"))
        (fun _ => Ret root)
        (fun _ => Ret tt)
        (fun _ => Ret tt)
        "20240101_120000" 4300 (fun _ => None).

(* ===================================================================== *)
(** * The script under [if __name__ == "__main__"] *)
(* ===================================================================== *)

(** The quick test: scrape at most two pages of films, then export if
    anything was found. *)
Definition main (env : Env) : M unit :=
  scrape_section env "films" (Some 2) ;;;
  self <- get_self ;;
  match movies_data self with
  | [] => ret tt
  | _ :: _ => save_to_csv env (Some "test_output.csv") ;;; ret tt
  end.

(** [scraper = LetterboxdScraper("marwanmovies")], then the rest. *)
Definition run_main (env : Env) : Res unit * State :=
  main env (init "marwanmovies").

(* ===================================================================== *)
(** * Vocabulary for the effects of a run *)
(* ===================================================================== *)

(** A URL of the site. *)
Definition on_site (url : string) : Prop :=
  PyStr.startswith "https://letterboxd.com/" url = true.

(** The two delays of the program, in milliseconds. *)
Definition courtesy_delay (ms : Z) : Prop := ms = 1500 \/ ms = 2000.

(** From [s] to [s']: no file was touched, the requests made were all to
    the site, and the sleeps were the two delays. *)
Definition confined (s s' : State) : Prop :=
  files s' = files s
  /\ (exists more, requests s' = requests s ++ more /\ Forall on_site more)
  /\ (exists naps, sleeps s' = sleeps s ++ naps /\ Forall courtesy_delay naps).

(** Every record has its detail page among the requests made. *)
Definition sourced (s : State) : Prop :=
  forall m, In m (movies_data s) -> In (film_url (movie_id m)) (requests s).

Definition keeps_sourced (s s' : State) : Prop :=
  (exists more, requests s' = requests s ++ more)
  /\ (sourced s -> sourced s').

(** From [s] to [s']: nothing but the files may differ. *)
Definition quiet (s s' : State) : Prop :=
  same_self s s' /\ requests s' = requests s /\ sleeps s' = sleeps s.

(** A record of the scraper of [user]: his name on it, and an identifier
    that is not empty and holds no slash. *)
Definition record_ok (user : string) (m : Movie) : Prop :=
  movie_username m = user
  /\ movie_id m <> ""
  /\ ~ PyStrSpec.occurs_in "/" (movie_id m).

Definition records_ok (s : State) : Prop :=
  Forall (record_ok (username s)) (movies_data s).

Definition keeps_records_ok (s s' : State) : Prop :=
  username s' = username s /\ (records_ok s -> records_ok s').

(** A world where [requests.get] and the parser raise nothing but
    [RequestException]s, and no sleep is interrupted. *)
Definition benign (env : Env) : Prop :=
  (forall n url e, requests_get env n url = Raise e ->
                   is_RequestException e = true)
  /\ (forall body e, html_parser env body = Raise e ->
                     is_RequestException e = true)
  /\ (forall n, time_sleep env n = Ret tt).

(** [m] returns, from every state. *)
Definition always_returns {A : Type} (m : M A) : Prop :=
  forall s, exists a, fst (m s) = Ret a.

(** The film components of a listing page. *)
Definition film_component (t : Bs4.Tag) : Prop :=
  Bs4.name t = "div"
  /\ In "react-component" (Bs4.classes t)
  /\ exists link, Bs4.lookup "data-target-link" (Bs4.attrs t) = Some link.

(** A world like [serving root] where no file can be opened. *)
Definition read_only (root : Bs4.Tag) : Env :=
  mkEnv (fun _ _ => Ret (mkResponse 200 "<html>"))
        (fun _ => Ret root)
        (fun _ => Ret tt)
        (fun _ => Raise OSError)
        "20240101_120000" 4300 (fun _ => None).

(** The characters of the numeric fields. *)
Definition digit_or_comma (c : ascii) : bool :=
  PyStr.isdecimal c || Ascii.eqb c ",".

Definition digit_or_dot (c : ascii) : bool :=
  PyStr.isdecimal c || Ascii.eqb c ".".

Definition not_nbsp (c : ascii) : bool := negb (Ascii.eqb c PyStr.nbsp).

(** From [s] to [s']: the sleeps were film delays of 1.5 seconds only. *)
Definition film_delays_only (s s' : State) : Prop :=
  exists naps, sleeps s' = sleeps s ++ naps /\ Forall (fun ms => ms = 1500) naps.

(* ===================================================================== *)
(** * Reasoning about the monad *)
(* ===================================================================== *)

Section Keeps.

Variable R : State -> State -> Prop.
Hypothesis R_refl : forall s, R s s.
Hypothesis R_trans : forall s1 s2 s3, R s1 s2 -> R s2 s3 -> R s1 s3.

Lemma keeps_ret {A : Type} (a : A) : keeps R (ret a).
Proof. intro s. apply R_refl. Qed.

Lemma keeps_raise {A : Type} (e : exn) : keeps R (@raise A e).
Proof. intro s. apply R_refl. Qed.

Lemma keeps_lift {A : Type} (r : Res A) : keeps R (lift r).
Proof. intro s. apply R_refl. Qed.

Lemma keeps_get_self : keeps R get_self.
Proof. intro s. apply R_refl. Qed.

Lemma keeps_bind {A B : Type} (m : M A) (k : A -> M B) :
  keeps R m -> (forall a, keeps R (k a)) -> keeps R (bind m k).
Proof.
  intros Hm Hk s. unfold bind. specialize (Hm s).
  destruct (m s) as [[a | e] s']; simpl in *.
  - eapply R_trans; [exact Hm | apply Hk].
  - exact Hm.
Qed.

Lemma keeps_try_except {A : Type} (body handler : M A) (classes : exn -> bool) :
  keeps R body -> keeps R handler -> keeps R (try_except body classes handler).
Proof.
  intros Hb Hh s. unfold try_except. specialize (Hb s).
  destruct (body s) as [[a | e] s']; simpl in *; [exact Hb |].
  destruct (classes e); simpl; [| exact Hb].
  eapply R_trans; [exact Hb | apply Hh].
Qed.

Lemma keeps_for_each {A : Type} (l : list A) (body : A -> M unit) :
  (forall a, keeps R (body a)) -> keeps R (for_each l body).
Proof.
  intro Hb. induction l as [| x l IH]; simpl.
  - apply keeps_ret.
  - apply keeps_bind; [apply Hb | intros _; exact IH].
Qed.

End Keeps.

Lemma same_self_refl s : same_self s s.
Proof. split; reflexivity. Qed.

Lemma same_self_trans s1 s2 s3 :
  same_self s1 s2 -> same_self s2 s3 -> same_self s1 s3.
Proof. intros [A1 A2] [B1 B2]. split; congruence. Qed.

Lemma grows_refl s : grows s s.
Proof.
  split; [reflexivity |]. split; [| auto].
  exists []. now rewrite app_nil_r.
Qed.

Lemma grows_trans s1 s2 s3 : grows s1 s2 -> grows s2 s3 -> grows s1 s3.
Proof.
  intros (A1 & [n1 A2] & A3) (B1 & [n2 B2] & B3).
  split; [congruence |]. split; [| auto].
  exists (n1 ++ n2). rewrite B2, A2. now rewrite app_assoc.
Qed.

Lemma same_self_grows s s' : same_self s s' -> grows s s'.
Proof.
  intros [A1 A2]. split; [exact A1 |]. split.
  - exists []. now rewrite app_nil_r.
  - unfold ids. now rewrite A2.
Qed.

(** ** What each method does, as equations *)

Section Equations.

Variable env : Env.

Lemma get_page_eq url s :
  get_page env url s =
  match requests_get env (length (requests s)) url with
  | Raise e =>
      if is_RequestException e then (Ret None, log_request url s)
      else (Raise e, log_request url s)
  | Ret r =>
      if (400 <=? status_code r) && (status_code r <? 600)
      then (Ret None, log_request url s)
      else match html_parser env (content r) with
           | Ret root => (Ret (Some (Bs4.soup_of root)), log_request url s)
           | Raise e =>
               if is_RequestException e then (Ret None, log_request url s)
               else (Raise e, log_request url s)
           end
  end.
Proof.
  unfold get_page, try_except, bind, http_get, raise_for_status,
    BeautifulSoup, bind, lift, ret, raise.
  destruct (requests_get env (length (requests s)) url) as [r | e]; simpl.
  - destruct ((400 <=? status_code r) && (status_code r <? 600)); simpl;
      [reflexivity |].
    destruct (html_parser env (content r)) as [root | e]; simpl;
      [reflexivity |].
    destruct (is_RequestException e); reflexivity.
  - destruct (is_RequestException e); reflexivity.
Qed.

(** Whatever happens, [get_page] logs its one request and nothing else
    changes. *)
Lemma get_page_state url s : snd (get_page env url s) = log_request url s.
Proof.
  rewrite get_page_eq.
  destruct (requests_get env (length (requests s)) url) as [r | e].
  - destruct ((400 <=? status_code r) && (status_code r <? 600));
      [reflexivity |].
    destruct (html_parser env (content r)) as [root | e]; [reflexivity |].
    destruct (is_RequestException e); reflexivity.
  - destruct (is_RequestException e); reflexivity.
Qed.

Lemma get_movie_details_eq url s :
  get_movie_details env url s =
  match get_page env url s with
  | (Ret None, s1) => (Ret None, s1)
  | (Ret (Some soup), s1) => (Ret (Some (details_of soup)), s1)
  | (Raise e, s1) => if is_Exception e then (Ret None, s1) else (Raise e, s1)
  end.
Proof.
  unfold get_movie_details, try_except, bind, ret.
  destruct (get_page env url s) as [[[soup |] | e] s1]; simpl; try reflexivity.
Qed.

Lemma get_movie_details_state url s :
  snd (get_movie_details env url s) = log_request url s.
Proof.
  rewrite get_movie_details_eq. rewrite <- (get_page_state url s).
  destruct (get_page env url s) as [[[soup |] | e] s1]; simpl; try reflexivity.
  destruct (is_Exception e); reflexivity.
Qed.

Lemma get_num_pages_eq section s :
  get_num_pages env section s =
  match get_page env (section_url (username s) section) s with
  | (Ret None, s1) => (Ret 1, s1)
  | (Ret (Some soup), s1) => (Ret (num_pages_of env soup), s1)
  | (Raise e, s1) => (Raise e, s1)
  end.
Proof.
  unfold get_num_pages, bind, get_self, ret.
  destruct (get_page env (section_url (username s) section) s)
    as [[[soup |] | e] s1]; reflexivity.
Qed.

Lemma scrape_item_eq it s :
  scrape_item env it s =
  let target_link := Bs4.get "data-target-link" "" it in
  if String.eqb target_link "" || negb (PyStr.contains "/film/" target_link)
  then (Ret tt, s)
  else
    match slug_of target_link with
    | Raise e => (Raise e, s)
    | Ret movie_slug =>
        if already_scraped movie_slug (movies_data s) then (Ret tt, s)
        else
          match extract_user_rating env it with
          | Raise e => (Raise e, s)
          | Ret user_rating =>
              match get_movie_details env (film_url movie_slug) s with
              | (Raise e, s1) => (Raise e, s1)
              | (Ret None, s1) => sleep env 1500 s1
              | (Ret (Some d), s1) =>
                  sleep env 1500
                    (add_movie (merge movie_slug (username s) user_rating d) s1)
              end
          end
    end.
Proof.
  unfold scrape_item. cbv zeta.
  destruct (String.eqb (Bs4.get "data-target-link" "" it) ""
            || negb (PyStr.contains "/film/" (Bs4.get "data-target-link" "" it)));
    [reflexivity |].
  unfold bind at 1, lift.
  destruct (slug_of (Bs4.get "data-target-link" "" it)) as [slug | e];
    [| reflexivity].
  unfold bind at 1, get_self.
  destruct (already_scraped slug (movies_data s)); [reflexivity |].
  unfold bind at 1, lift.
  destruct (extract_user_rating env it) as [ur | e]; [| reflexivity].
  unfold bind at 1.
  destruct (get_movie_details env (film_url slug) s) as [[[d |] | e] s1];
    reflexivity.
Qed.

End Equations.

(** ** The scraper object across the methods *)

Lemma keeps_weaken (R R' : State -> State -> Prop) {A : Type} (m : M A) :
  (forall s s', R s s' -> R' s s') -> keeps R m -> keeps R' m.
Proof. intros HR Hm s. apply HR, Hm. Qed.

Lemma already_scraped_In slug data :
  already_scraped slug data = true <-> In slug (map movie_id data).
Proof.
  unfold already_scraped. rewrite existsb_exists, in_map_iff. split.
  - intros (m & Hin & Heq). apply String.eqb_eq in Heq. now exists m.
  - intros (m & Heq & Hin). exists m. split; [exact Hin |].
    now apply String.eqb_eq.
Qed.

Lemma NoDup_snoc {A : Type} (l : list A) (x : A) :
  NoDup l -> ~ In x l -> NoDup (l ++ [x]).
Proof.
  induction l as [| y l IH]; simpl; intros Hnd Hx.
  - constructor; [intros [] | constructor].
  - inversion Hnd as [| ? ? Hy Hl]; subst. constructor.
    + rewrite in_app_iff. simpl. intros [H | [H | []]]; [now apply Hy |].
      apply Hx. now left.
    + apply IH; [exact Hl |]. intro H. apply Hx. now right.
Qed.

Section Growth.

Variable env : Env.

Lemma get_page_same url : keeps same_self (get_page env url).
Proof. intro s. rewrite get_page_state. split; reflexivity. Qed.

Lemma get_movie_details_same url : keeps same_self (get_movie_details env url).
Proof. intro s. rewrite get_movie_details_state. split; reflexivity. Qed.

Lemma sleep_same ms : keeps same_self (sleep env ms).
Proof. intro s. split; reflexivity. Qed.

Lemma get_num_pages_same section : keeps same_self (get_num_pages env section).
Proof.
  intro s. rewrite get_num_pages_eq.
  pose proof (get_page_same (section_url (username s) section) s) as H.
  destruct (get_page env (section_url (username s) section) s)
    as [[[soup |] | e] s1]; exact H.
Qed.

(** A new record goes to the end of [movies_data], under an identifier
    that was not there. *)
Lemma add_movie_grows m s :
  already_scraped (movie_id m) (movies_data s) = false ->
  grows s (add_movie m s).
Proof.
  intro Hnew. split; [reflexivity |]. split.
  - now exists [m].
  - unfold ids. simpl. rewrite map_app. simpl. intro Hnd.
    apply NoDup_snoc; [exact Hnd |].
    intro Hin. apply already_scraped_In in Hin. congruence.
Qed.

Lemma scrape_item_grows it : keeps grows (scrape_item env it).
Proof.
  intro s. rewrite scrape_item_eq. cbv zeta.
  destruct (_ || _); [apply grows_refl |].
  destruct (slug_of _) as [slug | e]; [| apply grows_refl].
  destruct (already_scraped slug (movies_data s)) eqn:Hseen;
    [apply grows_refl |].
  destruct (extract_user_rating env it) as [ur | e]; [| apply grows_refl].
  pose proof (get_movie_details_state env (film_url slug) s) as Hst.
  destruct (get_movie_details env (film_url slug) s) as [[[d |] | e] s1];
    simpl in Hst; subst s1.
  - eapply grows_trans; [| apply same_self_grows, sleep_same].
    apply grows_trans with (log_request (film_url slug) s);
      [apply same_self_grows; split; reflexivity
      | apply add_movie_grows; exact Hseen].
  - eapply grows_trans; [| apply same_self_grows, sleep_same].
    apply same_self_grows; split; reflexivity.
  - apply same_self_grows; split; reflexivity.
Qed.

Ltac grows_step :=
  first
    [ apply (keeps_ret grows grows_refl)
    | apply (keeps_get_self grows grows_refl)
    | apply (keeps_for_each grows grows_refl grows_trans)
    | apply (keeps_bind grows grows_trans) ].

Lemma scrape_page_grows section total page :
  keeps grows (scrape_page env section total page).
Proof.
  unfold scrape_page. grows_step; [grows_step |].
  intro self. grows_step.
  - eapply keeps_weaken; [apply same_self_grows | apply get_page_same].
  - intros [soup |]; [| grows_step].
    destruct (movie_items_of soup) as [| i0 items]; [grows_step |].
    grows_step.
    + grows_step. apply scrape_item_grows.
    + intros _. destruct (page <? total); [| grows_step].
      eapply keeps_weaken; [apply same_self_grows | apply sleep_same].
Qed.

Lemma scrape_section_grows section max_pages :
  keeps grows (scrape_section env section max_pages).
Proof.
  unfold scrape_section. grows_step.
  - eapply keeps_weaken; [apply same_self_grows | apply get_num_pages_same].
  - intro found. grows_step.
    + grows_step. intro page. apply scrape_page_grows.
    + intros _ s. apply grows_refl.
Qed.

Lemma sections_loop_grows sections max_pages :
  keeps grows (sections_loop env sections max_pages).
Proof.
  induction sections as [| section rest IH]; simpl.
  - grows_step.
  - intro s. pose proof (scrape_section_grows section max_pages s) as H.
    destruct (scrape_section env section max_pages s) as [[r | e] s1];
      simpl in H.
    + eapply grows_trans; [exact H | apply IH].
    + destruct (is_KeyboardInterrupt e); [exact H |].
      destruct (is_Exception e); [| exact H].
      eapply grows_trans; [exact H | apply IH].
Qed.

Lemma scrape_all_sections_grows sections max_pages :
  keeps grows (scrape_all_sections env sections max_pages).
Proof.
  unfold scrape_all_sections. grows_step.
  - apply sections_loop_grows.
  - intros _ s. apply grows_refl.
Qed.

End Growth.

(* ===================================================================== *)
(** * Facts about the tree queries *)
(* ===================================================================== *)

Module Bs4Facts.
Import Bs4 Bs4Spec.

Lemma decides_false p P t : decides p P -> ~ P t -> p t = false.
Proof.
  intros Hd Hn. destruct (p t) eqn:E; [| reflexivity].
  exfalso. apply Hn. now apply Hd.
Qed.

Lemma filter_none {A : Type} (f : A -> bool) (l : list A) :
  (forall y, In y l -> f y = false) -> filter f l = [].
Proof.
  induction l as [| a l IH]; simpl; intro H; [reflexivity |].
  rewrite (H a (or_introl eq_refl)). apply IH. intros y Hy. apply H. now right.
Qed.

Lemma find_all_no_match p P e :
  decides p P -> no_match P e -> find_all p e = [].
Proof.
  intros Hd Hn. unfold find_all. apply filter_none.
  intros y Hy. eapply decides_false; [exact Hd | now apply Hn].
Qed.

Lemma find_no_match p P e : decides p P -> no_match P e -> find p e = None.
Proof.
  intros Hd Hn. unfold find. now rewrite (find_all_no_match p P e Hd Hn).
Qed.

Lemma find_first_match p P e x :
  decides p P -> first_match P e x -> find p e = Some x.
Proof.
  intros Hd (before & after & Hdesc & Hx & Hbefore).
  unfold find, find_all. rewrite Hdesc, filter_app.
  rewrite (filter_none _ before).
  - simpl. apply Hd in Hx. now rewrite Hx.
  - intros y Hy. eapply decides_false; [exact Hd | now apply Hbefore].
Qed.

Lemma find_all_last_match p P e x :
  decides p P -> last_match P e x ->
  exists earlier, find_all p e = earlier ++ [x].
Proof.
  intros Hd (before & after & Hdesc & Hx & Hafter).
  unfold find_all. rewrite Hdesc, filter_app. simpl.
  apply Hd in Hx. rewrite Hx.
  rewrite (filter_none _ after).
  - now exists (filter (fun y => p (tag y)) before).
  - intros y Hy. eapply decides_false; [exact Hd | now apply Hafter].
Qed.

Lemma has_class_In c t : has_class c t = true <-> In c (classes t).
Proof.
  unfold has_class. rewrite existsb_exists. split.
  - intros (x & Hin & Heq). apply String.eqb_eq in Heq. now subst.
  - intro Hin. exists c. split; [exact Hin | apply String.eqb_refl].
Qed.

Lemma decides_tag_with_class nm c :
  decides (fun t => named nm t && has_class c t) (tag_with_class nm c).
Proof.
  intro t. unfold tag_with_class, named.
  rewrite andb_true_iff, String.eqb_eq, has_class_In. reflexivity.
Qed.

Lemma last_item_snoc {A : Type} (l : list A) (x : A) :
  last_item (l ++ [x]) = Ret x.
Proof. unfold last_item. now rewrite rev_app_distr. Qed.

End Bs4Facts.

(* ===================================================================== *)
(** * The page fetcher and the page count *)
(* ===================================================================== *)

(** C8. [get_page] makes exactly one request whatever comes back: the log
    grows by the URL and nothing else in the state changes. A timeout, a
    connection error or an error status (4xx or 5xx, what
    [raise_for_status] raises on) gives [None] and no exception; a
    response with another status whose body the parser accepts gives the
    parsed document. *)
Theorem get_page_one_attempt : forall env url s,
  let outcome := requests_get env (length (requests s)) url in
  let result := fst (get_page env url s) in
  let s' := snd (get_page env url s) in
  requests s' = requests s ++ [url]
  /\ same_self s s' /\ sleeps s' = sleeps s /\ files s' = files s
  /\ (outcome = Raise Timeout -> result = Ret None)
  /\ (outcome = Raise ConnectionError -> result = Ret None)
  /\ (forall resp, outcome = Ret resp ->
        400 <= status_code resp < 600 -> result = Ret None)
  /\ (forall resp root, outcome = Ret resp ->
        ~ 400 <= status_code resp < 600 ->
        html_parser env (content resp) = Ret root ->
        result = Ret (Some (Bs4.soup_of root))).
Proof.
  intros env url s. cbv zeta. rewrite get_page_state.
  repeat split; try reflexivity; rewrite get_page_eq.
  - intros ->. reflexivity.
  - intros ->. reflexivity.
  - intros resp -> Hst.
    replace ((400 <=? status_code resp) && (status_code resp <? 600)) with true;
      [reflexivity |].
    symmetry. apply andb_true_iff. split; [apply Z.leb_le | apply Z.ltb_lt]; lia.
  - intros resp root -> Hst Hparse.
    replace ((400 <=? status_code resp) && (status_code resp <? 600)) with false.
    + now rewrite Hparse.
    + symmetry. apply andb_false_iff.
      destruct (Z.leb_spec 400 (status_code resp)); [right | now left].
      apply Z.ltb_ge. lia.
Qed.

Example get_page_not_found :
  get_page (answering 404 rated_page) "https://letterboxd.com/film/heat-1995/"
           (init "marwanmovies")
  = (Ret None,
     log_request "https://letterboxd.com/film/heat-1995/" (init "marwanmovies")).
Proof. reflexivity. Qed.

Example get_page_timeout :
  get_page offline "https://letterboxd.com/film/heat-1995/" (init "marwanmovies")
  = (Ret None,
     log_request "https://letterboxd.com/film/heat-1995/" (init "marwanmovies")).
Proof. reflexivity. Qed.

Example get_page_found :
  get_page (answering 200 rated_page) "https://letterboxd.com/film/heat-1995/"
           (init "marwanmovies")
  = (Ret (Some (Bs4.soup_of rated_page)),
     log_request "https://letterboxd.com/film/heat-1995/" (init "marwanmovies")).
Proof. reflexivity. Qed.

(** The page count read in a fetched document. *)
Lemma num_pages_of_cases env soup :
  let n := num_pages_of env soup in
  (Bs4Spec.no_match (Bs4Spec.tag_with_class "div" "pagination") soup -> n = 1)
  /\ (forall pagination,
        Bs4Spec.first_match (Bs4Spec.tag_with_class "div" "pagination")
                            soup pagination ->
        (Bs4Spec.no_match (Bs4Spec.tag_with_class "li" "paginate-page")
                          pagination -> n = 1)
        /\ (forall link,
              Bs4Spec.last_match (Bs4Spec.tag_with_class "li" "paginate-page")
                                 pagination link ->
              match PyStr.int (int_max_str_digits env)
                              (PyStr.strip (Bs4.text link)) with
              | Some v => n = v
              | None => n = 1
              end)).
Proof.
  cbv zeta. unfold num_pages_of. split.
  - intro Hno.
    now rewrite (Bs4Facts.find_no_match _ _ _
                   (Bs4Facts.decides_tag_with_class "div" "pagination") Hno).
  - intros pagination Hfirst.
    rewrite (Bs4Facts.find_first_match _ _ _ _
               (Bs4Facts.decides_tag_with_class "div" "pagination") Hfirst).
    split.
    + intro Hno.
      now rewrite (Bs4Facts.find_all_no_match _ _ _
                     (Bs4Facts.decides_tag_with_class "li" "paginate-page") Hno).
    + intros link Hlast.
      destruct (Bs4Facts.find_all_last_match _ _ _ _
                  (Bs4Facts.decides_tag_with_class "li" "paginate-page") Hlast)
        as [earlier ->].
      rewrite Bs4Facts.last_item_snoc. simpl. unfold py_int.
      destruct (PyStr.int _ _) as [v |].
      * destruct earlier; reflexivity.
      * destruct earlier; reflexivity.
Qed.

(** C3, as the code has it. When the fetch gives nothing the count is 1.
    When it gives a document, the count is 1 if there is no pagination
    control or no page link in it or the text of the last page link is
    not an integer, and otherwise it is the integer that text reads as,
    whatever its value. *)
Theorem get_num_pages_resolution : forall env section s,
  let fetched := get_page env (section_url (username s) section) s in
  (fst fetched = Ret None ->
   get_num_pages env section s = (Ret 1, snd fetched))
  /\ (forall soup, fst fetched = Ret (Some soup) ->
      exists n,
        get_num_pages env section s = (Ret n, snd fetched)
        /\ (Bs4Spec.no_match (Bs4Spec.tag_with_class "div" "pagination") soup ->
            n = 1)
        /\ (forall pagination,
              Bs4Spec.first_match (Bs4Spec.tag_with_class "div" "pagination")
                                  soup pagination ->
              (Bs4Spec.no_match (Bs4Spec.tag_with_class "li" "paginate-page")
                                pagination -> n = 1)
              /\ (forall link,
                    Bs4Spec.last_match
                      (Bs4Spec.tag_with_class "li" "paginate-page")
                      pagination link ->
                    match PyStr.int (int_max_str_digits env)
                                    (PyStr.strip (Bs4.text link)) with
                    | Some v => n = v
                    | None => n = 1
                    end))).
Proof.
  intros env section s. cbv zeta. rewrite get_num_pages_eq.
  destruct (get_page env (section_url (username s) section) s)
    as [[[soup |] | e] s1]; simpl; split; try discriminate; try reflexivity.
  intros soup' [= <-]. exists (num_pages_of env soup).
  split; [reflexivity | apply num_pages_of_cases].
Qed.

(** C3 as stated fails: a pagination control whose last page link reads 0
    makes the count 0, which is below 1. *)
Lemma get_num_pages_below_one :
  exists n s',
    get_num_pages (serving (pagination_page "0")) "films" (init "marwanmovies")
    = (Ret n, s')
    /\ n < 1.
Proof.
  exists 0. eexists. split; [vm_compute; reflexivity | lia].
Qed.

Example get_num_pages_twelve :
  fst (get_num_pages (serving (pagination_page " 12 ")) "films"
         (init "marwanmovies")) = Ret 12.
Proof. vm_compute. reflexivity. Qed.

(* ===================================================================== *)
(** * The user rating *)
(* ===================================================================== *)

Module PyStrFacts.
Import PyStr.

Lemma prefix_app p s : String.prefix p s = true -> exists x, s = p +++ x.
Proof.
  revert s. induction p as [| a p IH]; intros s H.
  - now exists s.
  - destruct s as [| b s]; simpl in H; [discriminate |].
    destruct (ascii_dec a b) as [-> | _]; [| discriminate].
    destruct (IH s H) as [x ->]. now exists x.
Qed.

Lemma app_prefix p x : String.prefix p (p +++ x) = true.
Proof.
  induction p as [| a p IH]; simpl.
  - now destruct x.
  - destruct (ascii_dec a a) as [_ | N]; [exact IH | now elim N].
Qed.

Lemma prefix_empty s : String.prefix "" s = true.
Proof. now destruct s. Qed.

(** A character that is absent from a string. *)
Lemma contains_char_cons sep a s :
  contains (String sep "") (String a s) = false ->
  a <> sep /\ contains (String sep "") s = false.
Proof.
  simpl. destruct (ascii_dec sep a) as [-> | N].
  - rewrite prefix_empty. discriminate.
  - simpl. intro H. split; [congruence | exact H].
Qed.

Lemma eqb_neq_ascii a b : a <> b -> Ascii.eqb a b = false.
Proof. intro N. now apply Ascii.eqb_neq. Qed.

(** The first field of [split]: the text before the first separator. *)
Lemma split_head sep seg rest :
  contains (String sep "") seg = false ->
  rest = "" \/ (exists r, rest = String sep r) ->
  exists tl, split sep (seg +++ rest) = seg :: tl.
Proof.
  intros Hseg Hrest. induction seg as [| a seg IH]; simpl.
  - destruct Hrest as [-> | [r ->]]; simpl.
    + now exists [].
    + rewrite Ascii.eqb_refl. now exists (split sep r).
  - apply contains_char_cons in Hseg. destruct Hseg as [Ha Hseg].
    rewrite (eqb_neq_ascii _ _ Ha).
    destruct (IH Hseg) as [tl ->]. now exists tl.
Qed.

Lemma cut_at_sep sep x :
  exists seg rest,
    x = seg +++ rest
    /\ contains (String sep "") seg = false
    /\ (rest = "" \/ exists r, rest = String sep r).
Proof.
  induction x as [| a x (seg & rest & Hx & Hseg & Hrest)].
  - exists "", "". repeat split; auto.
  - destruct (ascii_dec a sep) as [-> | N].
    + exists "", (String sep x). repeat split; eauto.
    + exists (String a seg), rest. subst x. repeat split; [| exact Hrest].
      simpl. destruct (ascii_dec sep a) as [E | _]; [now elim N |].
      simpl. exact Hseg.
Qed.

End PyStrFacts.

Module RatingFacts.
Import Bs4 Bs4Spec RatingSpec.

Lemma find_parent_none nm e : no_parent nm e -> find_parent nm e = None.
Proof.
  unfold find_parent, no_parent. induction (parents e) as [| p ps IH];
    intro H; simpl; [reflexivity |].
  destruct (String.eqb_spec (name p) nm) as [E | _].
  - exfalso. apply (H p); [now left | exact E].
  - apply IH. intros t Ht. apply H. now right.
Qed.

Lemma find_parent_nearest nm e p :
  nearest_parent nm e p -> find_parent nm e = Some p.
Proof.
  intros (skipped & Hps & Hnm & Hskip). unfold find_parent. rewrite Hps.
  clear Hps. induction skipped as [| t ts IH]; simpl.
  - rewrite <- Hnm, String.eqb_refl. now destruct p.
  - destruct (String.eqb_spec (name t) nm) as [E | _].
    + exfalso. apply (Hskip t); [now left | exact E].
    + apply IH. intros u Hu. apply Hskip. now right.
Qed.

Lemma decides_rating_indicator :
  decides (fun t => named "span" t && class_search "rated-" t) rating_indicator.
Proof.
  intro t. unfold rating_indicator, named, class_search.
  rewrite andb_true_iff, String.eqb_eq, existsb_exists. reflexivity.
Qed.

Lemma encodes_startswith cls seg :
  encodes cls seg -> PyStr.startswith "rated-" cls = true.
Proof. intros (rest & -> & _). apply PyStrFacts.app_prefix. Qed.

Lemma encodes_field cls seg :
  encodes cls seg -> item (PyStr.split "-" cls) 1 = Ret seg.
Proof.
  intros (rest & -> & Hseg & Hrest).
  destruct (PyStrFacts.split_head "-" seg rest Hseg Hrest) as [tl Htl].
  change (PyStr.split "-" ("rated-" +++ seg +++ rest))
    with ("rated" :: PyStr.split "-" (seg +++ rest)).
  rewrite Htl. reflexivity.
Qed.

Lemma startswith_encodes cls :
  PyStr.startswith "rated-" cls = true -> exists seg, encodes cls seg.
Proof.
  intro H. apply PyStrFacts.prefix_app in H. destruct H as [x ->].
  destruct (PyStrFacts.cut_at_sep "-" x) as (seg & rest & -> & Hseg & Hrest).
  exists seg, rest. repeat split; assumption.
Qed.

Section Loop.

Variable env : Env.

(** [str(v / 2.0)] in and beyond the exact range. *)
Lemma str_half_exact big v :
  0 <= v <= 2 ^ 53 ->
  PyStr.str_half big v
  = Some (NilZero.string_of_int (Z.to_int (v / 2))
          +++ (if Z.even v then ".0" else ".5")).
Proof.
  intros [H0 H53]. unfold PyStr.str_half, PyStr.str_int.
  rewrite (Z.abs_eq v H0).
  replace (v <=? 2 ^ 53) with true by (symmetry; now apply Z.leb_le).
  replace (v <? 0) with false by (symmetry; now apply Z.ltb_ge).
  reflexivity.
Qed.

Lemma str_half_beyond big v : 2 ^ 53 < v -> PyStr.str_half big v = big v.
Proof.
  intro H. unfold PyStr.str_half.
  assert (H0 : 0 <= v) by (change (2 ^ 53) with 9007199254740992 in H; lia).
  rewrite (Z.abs_eq v H0).
  now replace (v <=? 2 ^ 53) with false by (symmetry; now apply Z.leb_gt).
Qed.

Lemma rated_loop_pass before rest :
  (forall c, In c before -> passed_over env c) ->
  rated_loop env (before ++ rest) = rated_loop env rest.
Proof.
  induction before as [| c before IH]; intro H; simpl; [reflexivity |].
  assert (IH' : rated_loop env (before ++ rest) = rated_loop env rest)
    by (apply IH; intros c' Hc'; apply H; now right).
  destruct (PyStr.startswith "rated-" c) eqn:Hsw; [| exact IH'].
  destruct (startswith_encodes c Hsw) as [seg Hseg].
  unfold decode_rated. rewrite (encodes_field c seg Hseg). simpl.
  pose proof (H c (or_introl eq_refl) seg Hseg) as Hpass.
  unfold py_int.
  destruct (PyStr.int (int_max_str_digits env) seg) as [v |]; simpl;
    [| exact IH'].
  destruct Hpass as [Hbig Hnone].
  unfold py_str_half. now rewrite (str_half_beyond _ v Hbig), Hnone.
Qed.

Lemma rated_loop_hit c rest seg v r :
  encodes c seg ->
  PyStr.int (int_max_str_digits env) seg = Some v ->
  PyStr.str_half (float_str_big env) v = Some r ->
  rated_loop env (c :: rest) = Some r.
Proof.
  intros Hseg Hint Hstr. simpl.
  rewrite (encodes_startswith c seg Hseg).
  unfold decode_rated. rewrite (encodes_field c seg Hseg). simpl.
  unfold py_int. rewrite Hint. simpl.
  unfold py_str_half. now rewrite Hstr.
Qed.

Lemma extract_user_rating_returns poster :
  exists r, extract_user_rating env poster = Ret r.
Proof.
  unfold extract_user_rating.
  destruct (find_parent "li" poster) as [parent |]; [| now eexists].
  destruct (find _ parent) as [rating_span |]; [| now eexists].
  destruct (rated_loop env (get_class rating_span)); now eexists.
Qed.

End Loop.

End RatingFacts.

(** Token value 7 gives 3.5, no token gives the marker. *)
Example rated_7 :
  extract_user_rating (serving (listing_page []))
    (poster_of ["rating"; "-micro"; "rated-7"]) = Ret "3.5".
Proof. vm_compute. reflexivity. Qed.

Example rated_nothing :
  extract_user_rating (serving (listing_page []))
    (poster_of ["rating"; "-micro"]) = Ret "Not Rated".
Proof. vm_compute. reflexivity. Qed.

Example poster_of_listing span_classes :
  movie_items_of (Bs4.soup_of (listing_page span_classes))
  = [poster_of span_classes].
Proof. reflexivity. Qed.

(* ===================================================================== *)
(** * The slug of a listing item *)
(* ===================================================================== *)

Module SlugFacts.
Import PyStr PyStrSpec PyStrFacts.

Lemma append_assoc a b c : (a +++ b) +++ c = a +++ b +++ c.
Proof. induction a as [| x a IH]; simpl; [reflexivity | now rewrite IH]. Qed.

Lemma append_nil_r a : a +++ "" = a.
Proof. induction a as [| x a IH]; simpl; [reflexivity | now rewrite IH]. Qed.

Lemma contains_nil sub : contains sub "" = String.prefix sub "" || false.
Proof. reflexivity. Qed.

Lemma contains_cons sub c s :
  contains sub (String c s) = String.prefix sub (String c s) || contains sub s.
Proof. reflexivity. Qed.

Lemma contains_prefix sub s : String.prefix sub s = true -> contains sub s = true.
Proof.
  intro H. destruct s; [rewrite contains_nil | rewrite contains_cons];
    now rewrite H.
Qed.

Lemma contains_occurs sub s : contains sub s = true <-> occurs_in sub s.
Proof.
  split.
  - induction s as [| c s IH];
      [rewrite contains_nil | rewrite contains_cons];
      rewrite orb_true_iff; intros [H | H].
    + apply prefix_app in H. destruct H as [x Hx]. now exists "", x.
    + discriminate.
    + apply prefix_app in H. destruct H as [x Hx]. now exists "", x.
    + destruct (IH H) as (a & b & ->). now exists (String c a), b.
  - intros (a & b & ->). induction a as [| c a IH].
    + change ("" +++ sub +++ b) with (sub +++ b).
      apply contains_prefix, app_prefix.
    + change (String c a +++ sub +++ b) with (String c (a +++ sub +++ b)).
      rewrite contains_cons, IH. apply orb_true_r.
Qed.

Lemma not_occurs_contains sub s : ~ occurs_in sub s <-> contains sub s = false.
Proof.
  rewrite <- contains_occurs. destruct (contains sub s); split; intro H;
    congruence.
Qed.

(** *** [strip] *)

Lemma lstrip_spec p s :
  exists a,
    s = a +++ lstrip_with p s /\ all_in p a /\ ~ starts_in p (lstrip_with p s).
Proof.
  induction s as [| c s (a & Hs & Ha & Hn)]; simpl.
  - exists "". repeat split. intros (c & r & H & _). discriminate.
  - destruct (p c) eqn:Hc.
    + exists (String c a). simpl. rewrite <- Hs. repeat split; assumption.
    + exists "". repeat split. intros (c' & r & [= <- _] & H). congruence.
Qed.

Lemma ends_in_empty p : ~ ends_in p "".
Proof. intros ([| x r] & c & H & _); discriminate. Qed.

Lemma rstrip_spec p s :
  exists b,
    s = rstrip_with p s +++ b /\ all_in p b /\ ~ ends_in p (rstrip_with p s).
Proof.
  induction s as [| c s (b & Hs & Hb & Hn)]; simpl.
  - exists "". repeat split. apply ends_in_empty.
  - destruct (rstrip_with p s) as [| d r1] eqn:Hr.
    + simpl in Hs. subst b. destruct (p c) eqn:Hc.
      * exists (String c s). repeat split; assumption.
      * exists s. repeat split; [exact Hb |].
        intros ([| x r] & c' & H & Hc'); simpl in H.
        -- injection H as E. congruence.
        -- injection H as _ H. destruct r; discriminate.
    + exists b. simpl. rewrite Hs at 1. repeat split; [exact Hb |].
      intros ([| x r] & c' & H & Hc'); simpl in H.
      * discriminate.
      * injection H as _ H. apply Hn. now exists r, c'.
Qed.

Lemma rstrip_keeps_head p s :
  ~ starts_in p s -> ~ starts_in p (rstrip_with p s).
Proof.
  intros Hn (c & r & Hr & Hc).
  destruct (rstrip_spec p s) as (b & Hs & _). rewrite Hr in Hs.
  apply Hn. exists c, (r +++ b). now split.
Qed.

Lemma strip_with_spec p s : stripped p s (strip_with p s).
Proof.
  unfold strip_with.
  destruct (lstrip_spec p s) as (a & Hs & Ha & Hstart).
  destruct (rstrip_spec p (lstrip_with p s)) as (b & Hl & Hb & Hend).
  exists a, b. repeat split; try assumption.
  - rewrite <- Hl. exact Hs.
  - now apply rstrip_keeps_head.
Qed.

(** *** [split] *)

Lemma split_nonempty sep t : split sep t <> [].
Proof.
  destruct t as [| c t]; simpl; [discriminate |].
  destruct (Ascii.eqb c sep); [discriminate |].
  destruct (split sep t); discriminate.
Qed.

Lemma split_join sep t : join (String sep "") (split sep t) = t.
Proof.
  unfold join. induction t as [| c t IH]; simpl; [reflexivity |].
  destruct (Ascii.eqb_spec c sep) as [-> | N].
  - pose proof (split_nonempty sep t) as Hne.
    destruct (split sep t) as [| y l]; [now elim Hne |].
    change (String.concat (String sep "") ("" :: y :: l))
      with (String sep (String.concat (String sep "") (y :: l))).
    now rewrite IH.
  - pose proof (split_nonempty sep t) as Hne.
    destruct (split sep t) as [| y l]; [now elim Hne |].
    destruct l as [| z l]; simpl in *; now rewrite IH.
Qed.

Lemma split_fields sep t :
  Forall (fun x => contains (String sep "") x = false) (split sep t).
Proof.
  induction t as [| c t IH]; simpl.
  - constructor; [reflexivity | constructor].
  - destruct (Ascii.eqb_spec c sep) as [-> | N].
    + constructor; [reflexivity | exact IH].
    + destruct (split sep t) as [| y l]; simpl.
      * constructor; [| constructor]. simpl.
        destruct (ascii_dec sep c); [congruence | reflexivity].
      * inversion IH as [| ? ? Hy Hl]; subst. constructor; [| exact Hl].
        simpl. destruct (ascii_dec sep c); [congruence |]. exact Hy.
Qed.

Lemma join_snoc sep init x :
  join sep (init ++ [x])
  = match init with
    | [] => x
    | _ => join sep init +++ sep +++ x
    end.
Proof.
  unfold join. induction init as [| y init IH]; [reflexivity |].
  change ((y :: init) ++ [x]) with (y :: (init ++ [x])).
  destruct init as [| z init].
  - reflexivity.
  - change (String.concat sep (y :: (z :: init) ++ [x]))
      with (y +++ sep +++ String.concat sep ((z :: init) ++ [x])).
    rewrite IH.
    change (String.concat sep (y :: z :: init))
      with (y +++ sep +++ String.concat sep (z :: init)).
    now rewrite !append_assoc.
Qed.

(** The last field of [split] is the final segment. *)
Lemma split_last sep t :
  exists seg, last_item (split sep t) = Ret seg /\ final_segment sep t seg.
Proof.
  pose proof (split_join sep t) as Hjoin.
  pose proof (split_fields sep t) as Hfields.
  destruct (exists_last (split_nonempty sep t)) as (init & seg & Hsplit).
  rewrite Hsplit in *. exists seg. split.
  - unfold last_item. now rewrite rev_app_distr.
  - rewrite join_snoc in Hjoin.
    apply Forall_app in Hfields. destruct Hfields as [_ Hseg].
    inversion Hseg as [| ? ? Hno _]; subst.
    apply not_occurs_contains in Hno.
    destruct init as [| y init].
    + exists "". repeat split; auto.
    + exists (join (String sep "") (y :: init) +++ String sep "").
      repeat split; [| right; eauto | exact Hno].
      now rewrite append_assoc.
Qed.

End SlugFacts.

Section ItemFacts.

Variable env : Env.

Lemma slug_of_returns target_link :
  exists movie_slug,
    slug_of target_link = Ret movie_slug
    /\ PyStrSpec.final_segment "/" (PyStr.strip_char "/" target_link) movie_slug.
Proof. unfold slug_of. apply SlugFacts.split_last. Qed.

Lemma listed_slug_some it movie_slug :
  listed_slug it = Some movie_slug ->
  String.eqb (Bs4.get "data-target-link" "" it) ""
  || negb (PyStr.contains "/film/" (Bs4.get "data-target-link" "" it)) = false
  /\ slug_of (Bs4.get "data-target-link" "" it) = Ret movie_slug.
Proof.
  unfold listed_slug. cbv zeta.
  destruct (_ || _); [discriminate |].
  destruct (slug_of _) as [x | e]; [| discriminate].
  intros [= ->]. now split.
Qed.

Lemma listed_slug_none it :
  listed_slug it = None ->
  String.eqb (Bs4.get "data-target-link" "" it) ""
  || negb (PyStr.contains "/film/" (Bs4.get "data-target-link" "" it)) = true.
Proof.
  unfold listed_slug. cbv zeta.
  destruct (_ || _); [reflexivity |].
  destruct (slug_of_returns (Bs4.get "data-target-link" "" it)) as (x & -> & _).
  discriminate.
Qed.

(** A discarded item, and an item already scraped, change nothing. *)
Lemma scrape_item_discarded it s :
  listed_slug it = None -> scrape_item env it s = (Ret tt, s).
Proof.
  intro H. rewrite scrape_item_eq. cbv zeta.
  now rewrite (listed_slug_none it H).
Qed.

Lemma scrape_item_seen it movie_slug s :
  listed_slug it = Some movie_slug ->
  already_scraped movie_slug (movies_data s) = true ->
  scrape_item env it s = (Ret tt, s).
Proof.
  intros H Hseen. apply listed_slug_some in H. destruct H as [Hc Hs].
  rewrite scrape_item_eq. cbv zeta. now rewrite Hc, Hs, Hseen.
Qed.

(** A new item: the detail page is requested, and what follows depends on
    what [get_movie_details] gives. *)
Lemma scrape_item_fresh it movie_slug s :
  listed_slug it = Some movie_slug ->
  already_scraped movie_slug (movies_data s) = false ->
  exists user_rating,
    extract_user_rating env it = Ret user_rating
    /\ scrape_item env it s =
       match fst (get_movie_details env (film_url movie_slug) s) with
       | Raise e => (Raise e, log_request (film_url movie_slug) s)
       | Ret None => sleep env 1500 (log_request (film_url movie_slug) s)
       | Ret (Some d) =>
           sleep env 1500
             (add_movie (merge movie_slug (username s) user_rating d)
                        (log_request (film_url movie_slug) s))
       end.
Proof.
  intros H Hseen. apply listed_slug_some in H. destruct H as [Hc Hs].
  destruct (RatingFacts.extract_user_rating_returns env it) as [ur Hur].
  exists ur. split; [exact Hur |].
  rewrite scrape_item_eq. cbv zeta. rewrite Hc, Hs, Hseen, Hur.
  pose proof (get_movie_details_state env (film_url movie_slug) s) as Hst.
  destruct (get_movie_details env (film_url movie_slug) s)
    as [[[d |] | e] s1]; simpl in *; now subst s1.
Qed.

Lemma scrape_item_fresh_requests it movie_slug s :
  listed_slug it = Some movie_slug ->
  already_scraped movie_slug (movies_data s) = false ->
  requests (snd (scrape_item env it s)) = requests s ++ [film_url movie_slug].
Proof.
  intros H Hseen.
  destruct (scrape_item_fresh it movie_slug s H Hseen) as (ur & _ & ->).
  destruct (fst (get_movie_details env (film_url movie_slug) s))
    as [[d |] | e]; reflexivity.
Qed.

Lemma scrape_item_fresh_data it movie_slug s :
  listed_slug it = Some movie_slug ->
  already_scraped movie_slug (movies_data s) = false ->
  exists user_rating,
    extract_user_rating env it = Ret user_rating
    /\ movies_data (snd (scrape_item env it s)) =
       match fst (get_movie_details env (film_url movie_slug) s) with
       | Ret (Some d) =>
           movies_data s ++ [merge movie_slug (username s) user_rating d]
       | _ => movies_data s
       end.
Proof.
  intros H Hseen.
  destruct (scrape_item_fresh it movie_slug s H Hseen) as (ur & Hur & ->).
  exists ur. split; [exact Hur |].
  destruct (fst (get_movie_details env (film_url movie_slug) s))
    as [[d |] | e]; reflexivity.
Qed.

End ItemFacts.

(** C6. An item whose target link is missing, or in which [/film/] does
    not occur, is discarded: nothing is fetched and nothing recorded.
    Otherwise the slug is the final segment of the link stripped of its
    leading and trailing slashes; it is the slug under which the item is
    looked up, fetched and recorded. *)
Theorem scrape_item_slug : forall env it s,
  let target_link := Bs4.get "data-target-link" "" it in
  (Bs4.lookup "data-target-link" (Bs4.attrs (Bs4.tag it)) = None ->
   scrape_item env it s = (Ret tt, s))
  /\ (~ PyStrSpec.occurs_in "/film/" target_link ->
      scrape_item env it s = (Ret tt, s))
  /\ (PyStrSpec.occurs_in "/film/" target_link ->
      exists movie_slug,
        PyStrSpec.stripped (Ascii.eqb "/") target_link
                           (PyStr.strip_char "/" target_link)
        /\ PyStrSpec.final_segment "/" (PyStr.strip_char "/" target_link)
                                   movie_slug
        /\ slug_of target_link = Ret movie_slug
        /\ listed_slug it = Some movie_slug
        /\ (already_scraped movie_slug (movies_data s) = false ->
            requests (snd (scrape_item env it s))
            = requests s ++ [film_url movie_slug]
            /\ (movies_data (snd (scrape_item env it s)) = movies_data s
                \/ exists m,
                    movies_data (snd (scrape_item env it s))
                    = movies_data s ++ [m]
                    /\ movie_id m = movie_slug))).
Proof.
  intros env it s. cbv zeta.
  assert (Hlacks : ~ PyStrSpec.occurs_in "/film/" (Bs4.get "data-target-link" "" it) ->
                   scrape_item env it s = (Ret tt, s)).
  { intro Hno. apply SlugFacts.not_occurs_contains in Hno.
    apply scrape_item_discarded. unfold listed_slug. cbv zeta.
    rewrite Hno. now rewrite orb_true_r. }
  split; [| split; [exact Hlacks |]].
  - intro Habsent. apply Hlacks. unfold Bs4.get. rewrite Habsent.
    apply SlugFacts.not_occurs_contains. reflexivity.
  - intro Hocc. pose proof Hocc as Hc.
    apply SlugFacts.contains_occurs in Hc.
    destruct (slug_of_returns (Bs4.get "data-target-link" "" it))
      as (movie_slug & Hslug & Hfinal).
    assert (Hlisted : listed_slug it = Some movie_slug).
    { unfold listed_slug. cbv zeta. rewrite Hc, Hslug.
      destruct (String.eqb_spec (Bs4.get "data-target-link" "" it) "") as [E | _];
        [| reflexivity].
      rewrite E in Hc. discriminate. }
    exists movie_slug. repeat split.
    + apply SlugFacts.strip_with_spec.
    + exact Hfinal.
    + exact Hslug.
    + exact Hlisted.
    + now apply scrape_item_fresh_requests.
    + rename H into Hseen.
      destruct (scrape_item_fresh_data env it movie_slug s Hlisted Hseen)
        as (ur & _ & ->).
      destruct (fst (get_movie_details env (film_url movie_slug) s))
        as [[d |] | e]; auto.
      right. eexists. split; reflexivity.
Qed.

Example slug_inception :
  slug_of "/film/inception/" = Ret "inception".
Proof. reflexivity. Qed.

(* ===================================================================== *)
(** * The accumulated records *)
(* ===================================================================== *)

Section Accumulation.

Variable env : Env.

Lemma open_file_same filename : keeps same_self (open_file env filename).
Proof.
  intro s. unfold open_file. destruct (open_w env filename);
    split; reflexivity.
Qed.

Lemma write_file_same filename text : keeps same_self (write_file filename text).
Proof. intro s. split; reflexivity. Qed.

Ltac same_step :=
  first
    [ apply (keeps_ret same_self same_self_refl)
    | apply (keeps_raise same_self same_self_refl)
    | apply (keeps_get_self same_self same_self_refl)
    | apply open_file_same
    | apply write_file_same
    | apply (keeps_try_except same_self same_self_trans)
    | apply (keeps_bind same_self same_self_trans) ].

Lemma save_to_csv_same filename : keeps same_self (save_to_csv env filename).
Proof.
  unfold save_to_csv. same_step; [same_step |]. intro self.
  destruct (movies_data self) as [| m data]; [same_step |].
  same_step; [| same_step].
  same_step; [same_step |]. intros _.
  same_step; [same_step |]. intros _.
  destruct (Csv.writerows fieldnames (map movie_dict (m :: data))) as [rows ok].
  same_step; [same_step |]. intros _.
  destruct ok; same_step.
Qed.

Lemma run_call_grows c s : grows s (run_call env c s).
Proof.
  destruct c as [section max_pages | sections max_pages | filename]; simpl.
  - apply scrape_section_grows.
  - apply scrape_all_sections_grows.
  - apply same_self_grows, save_to_csv_same.
Qed.

Lemma reachable_NoDup s : reachable env s -> NoDup (ids s).
Proof.
  induction 1 as [user | s c _ IH].
  - constructor.
  - now apply (run_call_grows c s).
Qed.

End Accumulation.

Lemma NoDup_map_inj {A B : Type} (f : A -> B) (l : list A) (x y : A) :
  NoDup (map f l) -> In x l -> In y l -> f x = f y -> x = y.
Proof.
  induction l as [| a l IH]; simpl; intros Hnd Hx Hy Hf; [contradiction |].
  inversion Hnd as [| ? ? Ha Hl]; subst.
  destruct Hx as [-> | Hx], Hy as [-> | Hy].
  - reflexivity.
  - exfalso. apply Ha. rewrite Hf. now apply in_map.
  - exfalso. apply Ha. rewrite <- Hf. now apply in_map.
  - now apply IH.
Qed.

(** C1. In every state of a run the identifiers of [movies_data] are
    pairwise distinct. An item whose slug is already there changes
    nothing, state and records alike. Whatever is called next, the
    records already there stay where they are, and a record of the later
    list with the identifier of an earlier one is that earlier record. *)
Theorem movies_data_unique : forall env s,
  reachable env s ->
  NoDup (ids s)
  /\ (forall it movie_slug,
        listed_slug it = Some movie_slug ->
        In movie_slug (ids s) ->
        scrape_item env it s = (Ret tt, s))
  /\ (forall c,
        (exists new, movies_data (run_call env c s) = movies_data s ++ new)
        /\ forall m m',
             In m (movies_data s) ->
             In m' (movies_data (run_call env c s)) ->
             movie_id m' = movie_id m ->
             m' = m).
Proof.
  intros env s Hreach. split; [now apply (reachable_NoDup env) |]. split.
  - intros it movie_slug Hslug Hin.
    apply (scrape_item_seen env it movie_slug s Hslug).
    now apply already_scraped_In.
  - intro c. destruct (run_call_grows env c s) as (_ & [new Hnew] & Hnd).
    split; [now exists new |].
    intros m m' Hm Hm' Hid.
    apply (NoDup_map_inj movie_id (movies_data (run_call env c s))).
    + apply Hnd. now apply (reachable_NoDup env).
    + exact Hm'.
    + rewrite Hnew. apply in_or_app. now left.
    + exact Hid.
Qed.

(** C9. [scrape_section] returns [self.movies_data] as it stands at the
    end of the call: the records that were there when the call began,
    followed by the ones this call appended. *)
Theorem scrape_section_returns_all : forall env section max_pages s r s',
  scrape_section env section max_pages s = (Ret r, s') ->
  r = movies_data s'
  /\ (exists new, r = movies_data s ++ new)
  /\ (forall m, In m (movies_data s) -> In m r).
Proof.
  intros env section max_pages s r s' Hrun.
  pose proof (scrape_section_grows env section max_pages s) as Hg.
  rewrite Hrun in Hg. simpl in Hg. destruct Hg as (_ & [new Hnew] & _).
  assert (Hr : r = movies_data s').
  { unfold scrape_section, bind in Hrun.
    destruct (get_num_pages env section s) as [[found | e] s1];
      [| discriminate].
    destruct (for_each _ _ s1) as [[[] | e] s2]; [| discriminate].
    unfold get_self, ret in Hrun. now inversion Hrun. }
  split; [exact Hr |]. rewrite Hr, Hnew. split.
  - now exists new.
  - intros m Hm. apply in_or_app. now left.
Qed.

(** C10. When [get_movie_details] gives nothing for a new slug, the item
    leaves [movies_data] as it was, so the slug is still unknown. An item
    with a slug that [movies_data] does not hold is never skipped: its
    detail page is requested, again if need be. *)
Theorem failed_details_not_remembered : forall env it movie_slug s,
  listed_slug it = Some movie_slug ->
  already_scraped movie_slug (movies_data s) = false ->
  fst (get_movie_details env (film_url movie_slug) s) = Ret None ->
  movies_data (snd (scrape_item env it s)) = movies_data s
  /\ requests (snd (scrape_item env it s)) = requests s ++ [film_url movie_slug]
  /\ already_scraped movie_slug (movies_data (snd (scrape_item env it s))) = false
  /\ (forall it' s2,
        listed_slug it' = Some movie_slug ->
        already_scraped movie_slug (movies_data s2) = false ->
        requests (snd (scrape_item env it' s2))
        = requests s2 ++ [film_url movie_slug])
  /\ requests (snd (scrape_item env it (snd (scrape_item env it s))))
     = requests s ++ [film_url movie_slug; film_url movie_slug].
Proof.
  intros env it movie_slug s Hslug Hnew Hnone.
  destruct (scrape_item_fresh_data env it movie_slug s Hslug Hnew)
    as (ur & _ & Hdata).
  rewrite Hnone in Hdata.
  assert (Hstill : already_scraped movie_slug
                     (movies_data (snd (scrape_item env it s))) = false)
    by now rewrite Hdata.
  split; [exact Hdata |]. split; [now apply scrape_item_fresh_requests |].
  split; [exact Hstill |]. split.
  - intros it' s2 Hslug' Hnew'. now apply scrape_item_fresh_requests.
  - rewrite (scrape_item_fresh_requests env it movie_slug _ Hslug Hstill).
    rewrite (scrape_item_fresh_requests env it movie_slug s Hslug Hnew).
    now rewrite <- app_assoc.
Qed.

(* ===================================================================== *)
(** * Several sections *)
(* ===================================================================== *)

Section Sections.

Variable env : Env.
Variable max_pages : option Z.

Lemma not_interrupt_is_Exception e :
  Raise (A := list Movie) e <> Raise KeyboardInterrupt ->
  is_KeyboardInterrupt e = false /\ is_Exception e = true.
Proof. destruct e; intro H; now split. Qed.

(** The loop goes on after a section that returned or raised an
    [Exception]. *)
Lemma sections_loop_next section rest s r s1 :
  scrape_section env section max_pages s = (r, s1) ->
  r <> Raise KeyboardInterrupt ->
  sections_loop env (section :: rest) max_pages s
  = sections_loop env rest max_pages s1.
Proof.
  intros Hrun Hr. simpl. rewrite Hrun. destruct r as [data | e];
    [reflexivity |].
  destruct (not_interrupt_is_Exception e Hr) as [-> ->]. reflexivity.
Qed.

Lemma sections_loop_through before rest s s0 :
  runs_through env max_pages before s s0 ->
  sections_loop env (before ++ rest) max_pages s
  = sections_loop env rest max_pages s0.
Proof.
  induction 1 as [s | section before s r s1 s2 Hrun Hr _ IH];
    [reflexivity |].
  rewrite <- app_comm_cons.
  now rewrite (sections_loop_next section _ s r s1 Hrun Hr).
Qed.

Lemma sections_loop_returns sections s :
  exists s', sections_loop env sections max_pages s = (Ret tt, s').
Proof.
  revert s. induction sections as [| section rest IH]; intro s; simpl.
  - now exists s.
  - destruct (scrape_section env section max_pages s) as [[data | e] s1];
      [apply IH |].
    destruct e; simpl; try apply IH. now exists s1.
Qed.

Lemma sections_loop_last section s :
  sections_loop env [section] max_pages s
  = (Ret tt, snd (scrape_section env section max_pages s)).
Proof.
  simpl. destruct (scrape_section env section max_pages s) as [[data | e] s1];
    [reflexivity |].
  destruct e; reflexivity.
Qed.

Lemma scrape_all_sections_eq sections s :
  scrape_all_sections env (Some sections) max_pages s
  = (Ret (movies_data (snd (sections_loop env sections max_pages s))),
     snd (sections_loop env sections max_pages s)).
Proof.
  unfold scrape_all_sections, bind.
  destruct (sections_loop_returns sections s) as [s' ->]. reflexivity.
Qed.

Lemma runs_through_grows before s s0 :
  runs_through env max_pages before s s0 -> grows s s0.
Proof.
  induction 1 as [s | section before s r s1 s2 Hrun _ _ IH].
  - apply grows_refl.
  - apply grows_trans with s1; [| exact IH].
    pose proof (scrape_section_grows env section max_pages s) as H.
    now rewrite Hrun in H.
Qed.

End Sections.

(** C7. [scrape_all_sections] always returns, and returns [movies_data]
    as it stands then. When the sections before [section] ran through and
    [section] raises an [Exception], the sections after it are scraped
    from the state it left, as if the list began with them: with one
    section [b] left, the result is [movies_data] after scraping [b]. When
    [section] is interrupted, nothing more is done: the result is
    [movies_data] as the interrupt found it, which still begins with the
    records held at the start. *)
Theorem section_isolation : forall env max_pages before section after s s0,
  runs_through env max_pages before s s0 ->
  (exists s',
     scrape_all_sections env (Some (before ++ section :: after)) max_pages s
     = (Ret (movies_data s'), s'))
  /\ (forall e s1,
        scrape_section env section max_pages s0 = (Raise e, s1) ->
        is_Exception e = true ->
        scrape_all_sections env (Some (before ++ section :: after)) max_pages s
        = scrape_all_sections env (Some after) max_pages s1
        /\ forall b, after = [b] ->
             scrape_all_sections env (Some (before ++ section :: after))
                                 max_pages s
             = (Ret (movies_data (snd (scrape_section env b max_pages s1))),
                snd (scrape_section env b max_pages s1)))
  /\ (forall s1,
        scrape_section env section max_pages s0 = (Raise KeyboardInterrupt, s1) ->
        scrape_all_sections env (Some (before ++ section :: after)) max_pages s
        = (Ret (movies_data s1), s1)
        /\ exists new, movies_data s1 = movies_data s ++ new).
Proof.
  intros env max_pages before section after s s0 Hthrough.
  split; [| split].
  - rewrite scrape_all_sections_eq. eauto.
  - intros e s1 Hrun He.
    assert (Hskip : scrape_all_sections env (Some (before ++ section :: after))
                      max_pages s
                    = scrape_all_sections env (Some after) max_pages s1).
    { rewrite !scrape_all_sections_eq.
      rewrite (sections_loop_through env max_pages before _ s s0 Hthrough).
      rewrite (sections_loop_next env max_pages section after s0 (Raise e) s1 Hrun);
        [reflexivity |].
      intros [= ->]. discriminate. }
    split; [exact Hskip |].
    intros b ->. rewrite Hskip, scrape_all_sections_eq.
    now rewrite sections_loop_last.
  - intros s1 Hrun. split.
    + rewrite scrape_all_sections_eq.
      rewrite (sections_loop_through env max_pages before _ s s0 Hthrough).
      simpl. now rewrite Hrun.
    + pose proof (runs_through_grows env max_pages before s s0 Hthrough) as G0.
      pose proof (scrape_section_grows env section max_pages s0) as G1.
      rewrite Hrun in G1. simpl in G1.
      destruct (grows_trans _ _ _ G0 G1) as (_ & Hnew & _). exact Hnew.
Qed.

(* ===================================================================== *)
(** * The detail page *)
(* ===================================================================== *)

Module DetailFacts.
Import Bs4 Bs4Spec DetailSpec.

Lemma attr_search_href pat t :
  attr_search "href" pat t = true <-> href_with pat t.
Proof.
  unfold attr_search, href_with. destruct (lookup "href" (attrs t)) as [v |].
  - rewrite SlugFacts.contains_occurs. split.
    + intro H. now exists v.
    + now intros (href & [= ->] & H).
  - split; [discriminate | now intros (href & H & _)].
Qed.

Lemma decides_genre_link :
  decides (fun t => named "a" t && attr_search "href" "/films/genre/" t)
          genre_link.
Proof.
  intro t. unfold genre_link, named.
  now rewrite andb_true_iff, String.eqb_eq, attr_search_href.
Qed.

Lemma decides_rating_meta :
  decides (fun t => named "meta" t && attr_is "name" "twitter:data2" t)
          rating_meta.
Proof.
  intro t. unfold rating_meta, named, attr_is.
  rewrite andb_true_iff, String.eqb_eq.
  destruct (lookup "name" (attrs t)) as [v |].
  - rewrite String.eqb_eq. split; intros [H1 H2]; split; congruence.
  - split; intros [H1 H2]; discriminate.
Qed.

Lemma decides_histogram_link :
  decides (fun t => named "a" t && attr_search "href" "rating-histogram" t)
          histogram_link.
Proof.
  intro t. unfold histogram_link, named.
  now rewrite andb_true_iff, String.eqb_eq, attr_search_href.
Qed.

Lemma decides_fans_link :
  decides (fun t => named "a" t && has_class "has-icon" t
                    && attr_search "href" "/fans/" t)
          fans_link.
Proof.
  intro t. unfold fans_link, named.
  rewrite !andb_true_iff, String.eqb_eq, attr_search_href,
    Bs4Facts.has_class_In.
  tauto.
Qed.

End DetailFacts.

(** The six defaults, each under the absence of its own feature only. *)
Lemma details_of_defaults soup :
  (Bs4Spec.no_match DetailSpec.title_heading soup ->
   d_movie_name (details_of soup) = "N/A")
  /\ (Bs4Spec.no_match DetailSpec.year_annotation soup ->
      d_year (details_of soup) = "N/A")
  /\ (Bs4Spec.no_match DetailSpec.genre_link soup ->
      d_genres (details_of soup) = "N/A")
  /\ (Bs4Spec.no_match DetailSpec.rating_meta soup ->
      d_vote_average (details_of soup) = "N/A")
  /\ (Bs4Spec.no_match DetailSpec.histogram_link soup ->
      d_vote_count (details_of soup) = "N/A")
  /\ (Bs4Spec.no_match DetailSpec.fans_link soup ->
      d_popularity (details_of soup) = "0").
Proof.
  simpl. repeat split; intro Hno.
  - unfold extract_movie_name.
    now rewrite (Bs4Facts.find_no_match _ _ _
                   (Bs4Facts.decides_tag_with_class "h1" "headline-1") Hno).
  - unfold extract_year.
    now rewrite (Bs4Facts.find_no_match _ _ _
                   (Bs4Facts.decides_tag_with_class "small" "number") Hno).
  - unfold extract_genres.
    now rewrite (Bs4Facts.find_all_no_match _ _ _
                   DetailFacts.decides_genre_link Hno).
  - unfold extract_vote_average.
    now rewrite (Bs4Facts.find_no_match _ _ _
                   DetailFacts.decides_rating_meta Hno).
  - unfold extract_vote_count.
    now rewrite (Bs4Facts.find_no_match _ _ _
                   DetailFacts.decides_histogram_link Hno).
  - unfold extract_popularity.
    now rewrite (Bs4Facts.find_no_match _ _ _
                   DetailFacts.decides_fans_link Hno).
Qed.

(** C4. When the detail page is fetched, [get_movie_details] returns a
    dictionary, in which a field whose feature is absent from the page
    holds its default, whatever the other features: N/A for the title,
    the year, the genres, the average and the vote count, 0 for the
    popularity. It returns [None] only when [get_page] returned [None] or
    raised an [Exception], and what it raises is no [Exception]. *)
Theorem get_movie_details_defaults : forall env movie_url s,
  (forall soup,
     fst (get_page env movie_url s) = Ret (Some soup) ->
     exists d,
       get_movie_details env movie_url s
       = (Ret (Some d), snd (get_page env movie_url s))
       /\ (Bs4Spec.no_match DetailSpec.title_heading soup ->
           d_movie_name d = "N/A")
       /\ (Bs4Spec.no_match DetailSpec.year_annotation soup ->
           d_year d = "N/A")
       /\ (Bs4Spec.no_match DetailSpec.genre_link soup ->
           d_genres d = "N/A")
       /\ (Bs4Spec.no_match DetailSpec.rating_meta soup ->
           d_vote_average d = "N/A")
       /\ (Bs4Spec.no_match DetailSpec.histogram_link soup ->
           d_vote_count d = "N/A")
       /\ (Bs4Spec.no_match DetailSpec.fans_link soup ->
           d_popularity d = "0"))
  /\ (fst (get_movie_details env movie_url s) = Ret None ->
      fst (get_page env movie_url s) = Ret None
      \/ exists e,
          fst (get_page env movie_url s) = Raise e /\ is_Exception e = true)
  /\ (forall e,
        fst (get_movie_details env movie_url s) = Raise e ->
        is_Exception e = false).
Proof.
  intros env movie_url s. rewrite get_movie_details_eq.
  destruct (get_page env movie_url s) as [[[soup |] | e] s1]; simpl.
  - split; [| split; [discriminate | discriminate]].
    intros soup' [= <-]. exists (details_of soup).
    split; [reflexivity | apply details_of_defaults].
  - split; [discriminate |]. split; [now left | discriminate].
  - split; [discriminate |]. destruct (is_Exception e) eqn:He; simpl.
    + split; [| discriminate]. intros _. right. now exists e.
    + split; [discriminate |]. now intros e' [= <-].
Qed.

(** A page with a title and no year: the title is read, the year is the
    default, and the record is added. *)
Example title_without_year :
  fst (get_movie_details (serving title_only_page) (film_url "heat-1995")
         (init "marwanmovies"))
  = Ret (Some (mkDetails "Heat" "N/A" "N/A" "N/A" "N/A" "0")).
Proof. vm_compute. reflexivity. Qed.

(* ===================================================================== *)
(** * The export *)
(* ===================================================================== *)

Module CsvFacts.
Import Csv.

Lemma writerow_several f1 f2 rest :
  writerow (f1 :: f2 :: rest)
  = PyStr.join "," (map field (f1 :: f2 :: rest)) +++ lineterminator.
Proof. destruct f1; reflexivity. Qed.

Lemma writeheader_fieldnames : writeheader fieldnames = header_line.
Proof. reflexivity. Qed.

Lemma dict_to_list_movie m :
  dict_to_list fieldnames (movie_dict m)
  = Some [movie_id m; movie_username m; movie_name m; year m; genres m;
          rating m; popularity m; vote_average m; vote_count m].
Proof. reflexivity. Qed.

Lemma concat_empty_cons x l :
  String.concat "" (x :: l) = x +++ String.concat "" l.
Proof.
  destruct l as [| y l]; [| reflexivity].
  simpl. now rewrite SlugFacts.append_nil_r.
Qed.

Lemma writerows_movies data :
  writerows fieldnames (map movie_dict data)
  = (String.concat "" (map record_line data), true).
Proof.
  induction data as [| m data IH]; [reflexivity |].
  change (map movie_dict (m :: data)) with (movie_dict m :: map movie_dict data).
  cbn [writerows]. rewrite dict_to_list_movie, IH.
  change (map record_line (m :: data))
    with (record_line m :: map record_line data).
  now rewrite concat_empty_cons.
Qed.

End CsvFacts.

(** C5. When [movies_data] is not empty and the file can be opened,
    [save_to_csv] returns the file name and the file holds the header
    line, which is the nine column names in their order, followed by the
    lines of the records in the order of [movies_data], each made of the
    nine values in the order of the header. The scraper object is left as
    it was. *)
Theorem save_to_csv_columns : forall env filename s,
  movies_data s <> [] ->
  open_w env (destination env filename s) = Ret tt ->
  Csv.writeheader fieldnames = header_line
  /\ fst (save_to_csv env filename s) = Ret (Some (destination env filename s))
  /\ read_file (destination env filename s) (snd (save_to_csv env filename s))
     = Some (header_line +++ String.concat "" (map record_line (movies_data s)))
  /\ same_self s (snd (save_to_csv env filename s)).
Proof.
  intros env filename s Hdata Hopen.
  split; [apply CsvFacts.writeheader_fieldnames |].
  assert (Hrun :
    save_to_csv env filename s
    = (Ret (Some (destination env filename s)),
       put_file (destination env filename s)
         (header_line +++ String.concat "" (map record_line (movies_data s)))
         (put_file (destination env filename s) header_line
            (put_file (destination env filename s) "" s)))).
  { unfold save_to_csv, bind at 1, get_self.
    destruct (movies_data s) as [| m data] eqn:Hm; [now elim Hdata |].
    fold (destination env filename s).
    rewrite CsvFacts.writerows_movies, CsvFacts.writeheader_fieldnames.
    unfold try_except, bind, open_file. rewrite Hopen.
    unfold write_file, read_file, put_file. simpl.
    rewrite !String.eqb_refl. simpl. now rewrite Hm. }
  rewrite Hrun. simpl. repeat split.
  unfold read_file. simpl. now rewrite String.eqb_refl.
Qed.

(* ===================================================================== *)
(** * The theorems at work on sample runs *)
(* ===================================================================== *)

Example after_films_data : movies_data after_films = [inception "3.5"].
Proof. vm_compute. reflexivity. Qed.

Example after_films_requests :
  requests after_films
  = ["https://letterboxd.com/marwanmovies/films/";
     "https://letterboxd.com/marwanmovies/films/page/1/";
     "https://letterboxd.com/film/inception/"].
Proof. vm_compute. reflexivity. Qed.

(** The state after a first section is a state of a run, so its records
    have distinct identifiers, and scraping the section again appends
    nothing. *)
Lemma movies_data_unique_after_films :
  NoDup (ids after_films)
  /\ (exists new,
        movies_data (run_call (serving rated_page)
                       (Scrape_section "films" None) after_films)
        = movies_data after_films ++ new).
Proof.
  assert (Hreach : reachable (serving rated_page) after_films)
    by (apply reach_call, reach_init).
  destruct (movies_data_unique (serving rated_page) after_films Hreach)
    as (Hnd & _ & Hcall).
  split; [exact Hnd |].
  exact (proj1 (Hcall (Scrape_section "films" None))).
Defined.

(** Scraping a section with one new film on a scraper that already holds
    a record returns both records. *)
Lemma scrape_section_returns_heat_too :
  [heat; inception "3.5"]
  = movies_data (snd (scrape_section (serving rated_page) "films" None with_heat))
  /\ (exists new, [heat; inception "3.5"] = movies_data with_heat ++ new)
  /\ (forall m, In m (movies_data with_heat) -> In m [heat; inception "3.5"]).
Proof.
  apply (scrape_section_returns_all (serving rated_page) "films" None with_heat).
  vm_compute. reflexivity.
Defined.

(** With the network down, the same item asks for its detail page each
    time it is met. *)
Lemma failed_details_asked_twice :
  requests (snd (scrape_item offline (poster_of [])
                   (snd (scrape_item offline (poster_of [])
                           (init "marwanmovies")))))
  = requests (init "marwanmovies")
    ++ [film_url "inception"; film_url "inception"].
Proof.
  refine (proj2 (proj2 (proj2 (proj2
            (failed_details_not_remembered offline (poster_of []) "inception"
               (init "marwanmovies") _ _ _)))));
    vm_compute; reflexivity.
Defined.

(** The parser rejects the reviews page: the films section that follows
    is scraped all the same, and its record is in the result. *)
Lemma section_isolation_reviews_rejected :
  scrape_all_sections (reviews_rejected rated_page)
    (Some (["diary"] ++ "reviews" :: ["films"])) (Some 1) (init "marwanmovies")
  = (Ret (movies_data
            (snd (scrape_section (reviews_rejected rated_page) "films" (Some 1)
                    (log_request "https://letterboxd.com/marwanmovies/reviews/"
                       (snd (scrape_section (reviews_rejected rated_page)
                               "diary" (Some 1) (init "marwanmovies"))))))),
     snd (scrape_section (reviews_rejected rated_page) "films" (Some 1)
            (log_request "https://letterboxd.com/marwanmovies/reviews/"
               (snd (scrape_section (reviews_rejected rated_page)
                       "diary" (Some 1) (init "marwanmovies")))))).
Proof.
  assert (Hthrough :
    runs_through (reviews_rejected rated_page) (Some 1) ["diary"]
      (init "marwanmovies")
      (snd (scrape_section (reviews_rejected rated_page) "diary" (Some 1)
              (init "marwanmovies")))).
  { eapply through_cons;
      [vm_compute; reflexivity | discriminate | vm_compute; apply through_nil]. }
  destruct (section_isolation (reviews_rejected rated_page) (Some 1)
              ["diary"] "reviews" ["films"] _ _ Hthrough) as (_ & Hexn & _).
  refine (proj2 (Hexn ParserRejectedMarkup _ _ eq_refl) "films" eq_refl).
  vm_compute. reflexivity.
Defined.

Example reviews_rejected_result :
  fst (scrape_all_sections (reviews_rejected rated_page)
         (Some ["reviews"; "films"]) None (init "marwanmovies"))
  = Ret [inception "3.5"].
Proof. vm_compute. reflexivity. Qed.

(** An interrupt during the first sleep: the record just appended is
    returned and no further section is requested. *)
Example interrupted_result :
  scrape_all_sections (interrupted rated_page)
    (Some ["films"; "diary"]) None (init "marwanmovies")
  = (Ret [inception "3.5"],
     mkState "marwanmovies" [inception "3.5"]
       ["https://letterboxd.com/marwanmovies/films/";
        "https://letterboxd.com/marwanmovies/films/page/1/";
        "https://letterboxd.com/film/inception/"]
       [1500] []).
Proof. vm_compute. reflexivity. Qed.

(** The export of one record whose genres hold a comma. *)
Lemma save_to_csv_heat :
  read_file "test_output.csv"
    (snd (save_to_csv (serving rated_page) (Some "test_output.csv") with_heat))
  = Some (header_line +++ String.concat "" (map record_line [heat])).
Proof.
  refine (proj1 (proj2 (proj2
            (save_to_csv_columns (serving rated_page) (Some "test_output.csv")
               with_heat _ _)))).
  - discriminate.
  - reflexivity.
Defined.

Example record_line_heat :
  record_line heat
  = "heat-1995,marwanmovies,Heat,1995,"
    +++ String PyStr.dquote ("Crime, Drama" +++ String PyStr.dquote
    (",4.5,12000,4.2,800000" +++ Csv.lineterminator)).
Proof. vm_compute. reflexivity. Qed.

(** The string primitives on sample inputs. *)
Example py_strip_ex : PyStr.strip "  12 " = "12". Proof. reflexivity. Qed.
Example py_split_ex : PyStr.split "/" (PyStr.strip_char "/" "/film/x/") = ["film"; "x"].
Proof. reflexivity. Qed.
Example py_split_ex2 : PyStr.split "-" "rated--3" = ["rated"; ""; "3"].
Proof. reflexivity. Qed.
Example py_int_ex : map (PyStr.int 4300) ["7"; " 7 "; "+7"; "-7"; "1_0"; "_1"; "1_"; "1__0"; "007"; ""; "+"]
  = [Some 7; Some 7; Some 7; Some (-7); Some 10; None; None; None; Some 7; None; None].
Proof. reflexivity. Qed.
Example py_half_ex : map (PyStr.str_half (fun _ => None)) [7; 0; 10; -7; 2^53; 2^53-1; 2^53 + 1]
  = [Some "3.5"; Some "0.0"; Some "5.0"; Some "-3.5"; Some "4503599627370496.0"; Some "4503599627370495.5"; None].
Proof. vm_compute. reflexivity. Qed.
Example py_re_ex1 : PyStr.search_out_of "3.9.  4.1  out of 5" = Some "4.1".
Proof. reflexivity. Qed.
Example py_re_ex2 : PyStr.search_digits_commas "ab,1,234 56" = Some ",1,234".
Proof. reflexivity. Qed.

(* ===================================================================== *)
(** * More on the code: what a run does to the world *)
(* ===================================================================== *)

(** What holds of the page fetches, of each item and of the delay between
    pages holds of a page, a section and a list of sections. *)
Section Lifting.

Variable env : Env.
Variable R : State -> State -> Prop.
Hypothesis R_refl : forall s, R s s.
Hypothesis R_trans : forall s1 s2 s3, R s1 s2 -> R s2 s3 -> R s1 s3.
Hypothesis R_section_page :
  forall user section, keeps R (get_page env (section_url user section)).
Hypothesis R_listing_page :
  forall user section page, keeps R (get_page env (page_url user section page)).
Hypothesis R_item : forall it, keeps R (scrape_item env it).
Hypothesis R_page_delay : keeps R (sleep env 2000).

Lemma lifted_get_num_pages section : keeps R (get_num_pages env section).
Proof.
  unfold get_num_pages.
  apply (keeps_bind R R_trans); [apply (keeps_get_self R R_refl) |].
  intro self. apply (keeps_bind R R_trans); [apply R_section_page |].
  intros [soup |]; apply (keeps_ret R R_refl).
Qed.

Lemma lifted_scrape_page section total page :
  keeps R (scrape_page env section total page).
Proof.
  unfold scrape_page.
  apply (keeps_bind R R_trans); [apply (keeps_get_self R R_refl) |].
  intro self. apply (keeps_bind R R_trans); [apply R_listing_page |].
  intros [soup |]; [| apply (keeps_ret R R_refl)].
  destruct (movie_items_of soup) as [| i0 items];
    [apply (keeps_ret R R_refl) |].
  apply (keeps_bind R R_trans).
  - apply (keeps_for_each R R_refl R_trans). exact R_item.
  - intros _. destruct (page <? total);
      [exact R_page_delay | apply (keeps_ret R R_refl)].
Qed.

Lemma lifted_scrape_section section max_pages :
  keeps R (scrape_section env section max_pages).
Proof.
  unfold scrape_section.
  apply (keeps_bind R R_trans); [apply lifted_get_num_pages |].
  intro found. apply (keeps_bind R R_trans).
  - apply (keeps_for_each R R_refl R_trans). intro page.
    apply lifted_scrape_page.
  - intros _ s. apply R_refl.
Qed.

Lemma lifted_sections_loop sections max_pages :
  keeps R (sections_loop env sections max_pages).
Proof.
  induction sections as [| section rest IH]; simpl.
  - apply (keeps_ret R R_refl).
  - intro s. pose proof (lifted_scrape_section section max_pages s) as H.
    destruct (scrape_section env section max_pages s) as [[r | e] s1];
      simpl in H.
    + eapply R_trans; [exact H | apply IH].
    + destruct (is_KeyboardInterrupt e); [exact H |].
      destruct (is_Exception e); [| exact H].
      eapply R_trans; [exact H | apply IH].
Qed.

Lemma lifted_scrape_all_sections sections max_pages :
  keeps R (scrape_all_sections env sections max_pages).
Proof.
  unfold scrape_all_sections.
  apply (keeps_bind R R_trans); [apply lifted_sections_loop |].
  intros _ s. apply R_refl.
Qed.

End Lifting.

Section Confinement.

Variable env : Env.

Lemma confined_refl s : confined s s.
Proof.
  split; [reflexivity |]. split; exists []; rewrite app_nil_r; auto.
Qed.

Lemma confined_trans s1 s2 s3 : confined s1 s2 -> confined s2 s3 -> confined s1 s3.
Proof.
  intros (F1 & (m1 & Q1 & P1) & (n1 & S1 & D1))
         (F2 & (m2 & Q2 & P2) & (n2 & S2 & D2)).
  split; [congruence |]. split.
  - exists (m1 ++ m2). rewrite Q2, Q1, app_assoc. split; [reflexivity |].
    apply Forall_app. now split.
  - exists (n1 ++ n2). rewrite S2, S1, app_assoc. split; [reflexivity |].
    apply Forall_app. now split.
Qed.

(** The two branches of each URL give the same shape. *)
Lemma section_url_uniform user section :
  section_url user section
  = base_url +++ "/" +++ user +++ "/" +++ section +++ "/".
Proof.
  unfold section_url.
  destruct (String.eqb_spec section "likes/films") as [-> | _]; reflexivity.
Qed.

Lemma page_url_uniform user section page :
  page_url user section page
  = base_url +++ "/" +++ user +++ "/" +++ section +++ "/page/"
    +++ PyStr.str_int page +++ "/".
Proof.
  unfold page_url.
  destruct (String.eqb_spec section "likes/films") as [-> | _]; reflexivity.
Qed.

Lemma on_site_section_url user section : on_site (section_url user section).
Proof.
  rewrite section_url_uniform.
  exact (PyStrFacts.app_prefix "https://letterboxd.com/"
           (user +++ "/" +++ section +++ "/")).
Qed.

Lemma on_site_page_url user section page :
  on_site (page_url user section page).
Proof.
  rewrite page_url_uniform.
  exact (PyStrFacts.app_prefix "https://letterboxd.com/"
           (user +++ "/" +++ section +++ "/page/"
            +++ PyStr.str_int page +++ "/")).
Qed.

Lemma on_site_film_url movie_slug : on_site (film_url movie_slug).
Proof.
  exact (PyStrFacts.app_prefix "https://letterboxd.com/"
           ("film/" +++ movie_slug +++ "/")).
Qed.

Lemma log_request_confined url s : on_site url -> confined s (log_request url s).
Proof.
  intro H. split; [reflexivity |]. split.
  - exists [url]. split; [reflexivity | now constructor].
  - exists []. simpl. rewrite app_nil_r. auto.
Qed.

Lemma log_sleep_confined ms s :
  courtesy_delay ms -> confined s (log_sleep ms s).
Proof.
  intro H. split; [reflexivity |]. split.
  - exists []. simpl. rewrite app_nil_r. auto.
  - exists [ms]. split; [reflexivity | now constructor].
Qed.

Lemma add_movie_confined m s : confined s (add_movie m s).
Proof.
  split; [reflexivity |]. split; exists []; simpl; rewrite app_nil_r; auto.
Qed.

Lemma get_page_confined url : on_site url -> keeps confined (get_page env url).
Proof. intros H s. rewrite get_page_state. now apply log_request_confined. Qed.

Lemma sleep_confined ms : courtesy_delay ms -> keeps confined (sleep env ms).
Proof. intros H s. now apply log_sleep_confined. Qed.

Lemma scrape_item_confined it : keeps confined (scrape_item env it).
Proof.
  intro s. rewrite scrape_item_eq. cbv zeta.
  destruct (_ || _); [apply confined_refl |].
  destruct (slug_of _) as [slug | e]; [| apply confined_refl].
  destruct (already_scraped slug (movies_data s)); [apply confined_refl |].
  destruct (extract_user_rating env it) as [ur | e]; [| apply confined_refl].
  pose proof (get_movie_details_state env (film_url slug) s) as Hst.
  pose proof (log_request_confined (film_url slug) s (on_site_film_url slug))
    as Hreq.
  destruct (get_movie_details env (film_url slug) s) as [[[d |] | e] s1];
    simpl in Hst; subst s1; simpl.
  - apply confined_trans with (log_request (film_url slug) s); [exact Hreq |].
    eapply confined_trans; [apply add_movie_confined |].
    apply log_sleep_confined. now left.
  - apply confined_trans with (log_request (film_url slug) s); [exact Hreq |].
    apply log_sleep_confined. now left.
  - exact Hreq.
Qed.

Lemma scrape_section_confined section max_pages :
  keeps confined (scrape_section env section max_pages).
Proof.
  apply (lifted_scrape_section env confined confined_refl confined_trans).
  - intros user sec. apply get_page_confined, on_site_section_url.
  - intros user sec page. apply get_page_confined, on_site_page_url.
  - exact scrape_item_confined.
  - apply sleep_confined. now right.
Qed.

Lemma scrape_all_sections_confined sections max_pages :
  keeps confined (scrape_all_sections env sections max_pages).
Proof.
  apply (lifted_scrape_all_sections env confined confined_refl confined_trans).
  - intros user sec. apply get_page_confined, on_site_section_url.
  - intros user sec page. apply get_page_confined, on_site_page_url.
  - exact scrape_item_confined.
  - apply sleep_confined. now right.
Qed.

Lemma scrape_page_confined section total page :
  keeps confined (scrape_page env section total page).
Proof.
  apply (lifted_scrape_page env confined confined_refl confined_trans).
  - intros user sec p. apply get_page_confined, on_site_page_url.
  - exact scrape_item_confined.
  - apply sleep_confined. now right.
Qed.

End Confinement.

(** X1. Scraping, one section or several, never touches a file, requests
    nothing but URLs of the site, and sleeps nothing but the two delays
    of 1.5 and 2 seconds; the log of earlier requests is kept as it
    was. *)
Theorem scraping_confined : forall env max_pages s,
  (forall section,
     confined s (snd (scrape_section env section max_pages s)))
  /\ (forall sections,
        confined s (snd (scrape_all_sections env sections max_pages s))).
Proof.
  intros env max_pages s. split.
  - intro section. apply scrape_section_confined.
  - intro sections. apply scrape_all_sections_confined.
Qed.

(** X2. The page count costs one request, and a listing page begins with
    one, whose URLs have one shape for every section: the special case
    for the liked films builds the same URL as the general case. *)
Theorem section_urls_uniform : forall env section s,
  snd (get_num_pages env section s)
  = log_request
      (base_url +++ "/" +++ username s +++ "/" +++ section +++ "/") s
  /\ (forall total page,
        exists more,
          requests (snd (scrape_page env section total page s))
          = requests s
            ++ (base_url +++ "/" +++ username s +++ "/" +++ section
                +++ "/page/" +++ PyStr.str_int page +++ "/") :: more).
Proof.
  intros env section s. split.
  - rewrite get_num_pages_eq, <- section_url_uniform.
    rewrite <- (get_page_state env (section_url (username s) section) s).
    destruct (get_page env (section_url (username s) section) s)
      as [[[soup |] | e] s1]; reflexivity.
  - intros total page. rewrite <- page_url_uniform.
    unfold scrape_page, bind at 1, get_self. unfold bind at 1.
    pose proof (get_page_state env (page_url (username s) section page) s)
      as Hst.
    destruct (get_page env (page_url (username s) section page) s)
      as [[[soup |] | e] s1]; simpl in Hst; subst s1;
      try (exists []; reflexivity).
    destruct (movie_items_of soup) as [| i0 items];
      [exists []; reflexivity |].
    set (rest := for_each (i0 :: items) (scrape_item env) ;;;
                 (if page <? total then sleep env 2000 else ret tt)).
    assert (Hrest : keeps confined rest).
    { apply (keeps_bind confined confined_trans).
      - apply (keeps_for_each confined confined_refl confined_trans).
        apply scrape_item_confined.
      - intros _. destruct (page <? total).
        + apply sleep_confined. now right.
        + apply (keeps_ret confined confined_refl). }
    destruct (Hrest (log_request (page_url (username s) section page) s))
      as (_ & (more & Hmore & _) & _).
    exists more. rewrite Hmore. simpl. now rewrite <- app_assoc.
Qed.

Lemma get_num_pages_state env section s :
  snd (get_num_pages env section s)
  = log_request (section_url (username s) section) s.
Proof.
  rewrite get_num_pages_eq.
  rewrite <- (get_page_state env (section_url (username s) section) s).
  destruct (get_page env (section_url (username s) section) s)
    as [[[soup |] | e] s1]; reflexivity.
Qed.

Lemma range_from_1_nonpositive n : n <= 0 -> range_from_1 n = [].
Proof.
  intro H. unfold range_from_1.
  replace (Z.to_nat n) with 0%nat by lia. reflexivity.
Qed.

(** X3. The page cap at its edges. A cap of 0 is no cap: it scrapes what
    no cap scrapes. When the count, capped, is 0 or less (a negative cap,
    or a page count read as 0), no listing page is requested: the call
    returns [movies_data] as it was, having made the one request of the
    page count. *)
Theorem page_cap_edges : forall env section s,
  scrape_section env section (Some 0) s = scrape_section env section None s
  /\ (forall max_pages found,
        fst (get_num_pages env section s) = Ret found ->
        cap_pages found max_pages <= 0 ->
        scrape_section env section max_pages s
        = (Ret (movies_data s),
           log_request (section_url (username s) section) s)).
Proof.
  intros env section s. split; [reflexivity |].
  intros max_pages found Hfound Hcap.
  pose proof (get_num_pages_state env section s) as Hst.
  unfold scrape_section, bind.
  destruct (get_num_pages env section s) as [[n | e] s1]; simpl in *;
    [| discriminate].
  injection Hfound as ->. subst s1.
  now rewrite (range_from_1_nonpositive _ Hcap).
Qed.

(** A negative cap on a site with many pages: one request, no record. *)
Lemma page_cap_negative :
  scrape_section (serving (pagination_page "12")) "films" (Some (-1))
                 (init "marwanmovies")
  = (Ret [],
     log_request "https://letterboxd.com/marwanmovies/films/"
                 (init "marwanmovies")).
Proof.
  refine (proj2 (page_cap_edges (serving (pagination_page "12")) "films"
                   (init "marwanmovies")) (Some (-1)) 12 _ _).
  - vm_compute. reflexivity.
  - vm_compute. discriminate.
Defined.

Lemma decides_film_component :
  Bs4Spec.decides
    (fun t => Bs4.named "div" t && Bs4.has_class "react-component" t
              && Bs4.has_attr "data-target-link" t)
    film_component.
Proof.
  intro t. unfold film_component, Bs4.named, Bs4.has_attr.
  rewrite !andb_true_iff, String.eqb_eq, Bs4Facts.has_class_In.
  destruct (Bs4.lookup "data-target-link" (Bs4.attrs t)) as [link |].
  - split; [intros [[H1 H2] _]; eauto | intros (H1 & H2 & _); auto].
  - split; [intros [_ H]; discriminate | intros (_ & _ & link & H); discriminate].
Qed.

Lemma scrape_page_eq env section total page s :
  scrape_page env section total page s
  = match get_page env (page_url (username s) section page) s with
    | (Raise e, s1) => (Raise e, s1)
    | (Ret None, s1) => (Ret tt, s1)
    | (Ret (Some soup), s1) =>
        match movie_items_of soup with
        | [] => (Ret tt, s1)
        | movie_items =>
            (for_each movie_items (scrape_item env) ;;;
             (if page <? total then sleep env 2000 else ret tt)) s1
        end
    end.
Proof.
  unfold scrape_page, bind at 1, get_self. unfold bind at 1.
  destruct (get_page env (page_url (username s) section page) s)
    as [[[soup |] | e] s1]; try reflexivity.
  destruct (movie_items_of soup); reflexivity.
Qed.

(** X4. A listing page that cannot be fetched, or that holds no film
    component, is skipped: the page costs its one request and nothing
    else happens, not even the delay between pages. *)
Theorem scrape_page_skips : forall env section total page s,
  (fst (get_page env (page_url (username s) section page) s) = Ret None ->
   scrape_page env section total page s
   = (Ret tt, log_request (page_url (username s) section page) s))
  /\ (forall soup,
        fst (get_page env (page_url (username s) section page) s)
        = Ret (Some soup) ->
        Bs4Spec.no_match film_component soup ->
        scrape_page env section total page s
        = (Ret tt, log_request (page_url (username s) section page) s)).
Proof.
  intros env section total page s. rewrite scrape_page_eq.
  pose proof (get_page_state env (page_url (username s) section page) s) as Hst.
  destruct (get_page env (page_url (username s) section page) s)
    as [[[soup |] | e] s1]; simpl in Hst; subst s1; split;
    try (intros; reflexivity); try (intro H; discriminate H);
    try (intros soup' H; discriminate H).
  intros soup' H Hno. injection H as <-.
  assert (Hitems : movie_items_of soup = [])
    by (apply (Bs4Facts.find_all_no_match _ _ _ decides_film_component Hno)).
  now rewrite Hitems.
Qed.

Example scrape_page_offline :
  scrape_page offline "films" 3 1 (init "marwanmovies")
  = (Ret tt,
     log_request "https://letterboxd.com/marwanmovies/films/page/1/"
                 (init "marwanmovies")).
Proof. reflexivity. Qed.

Example scrape_page_no_films :
  scrape_page (serving (pagination_page "3")) "films" 3 1 (init "marwanmovies")
  = (Ret tt,
     log_request "https://letterboxd.com/marwanmovies/films/page/1/"
                 (init "marwanmovies")).
Proof. reflexivity. Qed.

(** X5. The delay of 1.5 seconds follows every detail fetch that did not
    raise, whether it gave details or not, and the item then ends as the
    sleep ends. A discarded item and an item already scraped sleep not
    at all, and when the detail fetch raises the item stops there,
    without a sleep. *)
Theorem scrape_item_delay : forall env it s,
  (listed_slug it = None -> sleeps (snd (scrape_item env it s)) = sleeps s)
  /\ (forall movie_slug,
        listed_slug it = Some movie_slug ->
        (already_scraped movie_slug (movies_data s) = true ->
         sleeps (snd (scrape_item env it s)) = sleeps s)
        /\ (already_scraped movie_slug (movies_data s) = false ->
            (forall r,
               fst (get_movie_details env (film_url movie_slug) s) = Ret r ->
               sleeps (snd (scrape_item env it s)) = sleeps s ++ [1500]
               /\ fst (scrape_item env it s)
                  = time_sleep env (length (sleeps s)))
            /\ (forall e,
                  fst (get_movie_details env (film_url movie_slug) s)
                  = Raise e ->
                  scrape_item env it s
                  = (Raise e, log_request (film_url movie_slug) s)))).
Proof.
  intros env it s. split.
  - intro H. now rewrite (scrape_item_discarded env it s H).
  - intros movie_slug Hslug. split.
    + intro Hseen. now rewrite (scrape_item_seen env it movie_slug s Hslug Hseen).
    + intro Hnew.
      destruct (scrape_item_fresh env it movie_slug s Hslug Hnew)
        as (ur & _ & ->).
      split.
      * intros r ->. destruct r as [d |]; split; reflexivity.
      * intros e ->. reflexivity.
Qed.

(** X6. A record appended before its delay is interrupted is not lost:
    when the details came and the sleep raises, the item raises what the
    sleep raised and [movies_data] holds the new record. *)
Theorem interrupted_delay_keeps_record : forall env it movie_slug s d e,
  listed_slug it = Some movie_slug ->
  already_scraped movie_slug (movies_data s) = false ->
  fst (get_movie_details env (film_url movie_slug) s) = Ret (Some d) ->
  time_sleep env (length (sleeps s)) = Raise e ->
  exists user_rating,
    extract_user_rating env it = Ret user_rating
    /\ fst (scrape_item env it s) = Raise e
    /\ movies_data (snd (scrape_item env it s))
       = movies_data s ++ [merge movie_slug (username s) user_rating d].
Proof.
  intros env it movie_slug s d e Hslug Hnew Hd Hsleep.
  destruct (scrape_item_fresh env it movie_slug s Hslug Hnew)
    as (ur & Hur & ->).
  exists ur. rewrite Hd. unfold sleep. simpl. rewrite Hsleep. auto.
Qed.

Lemma interrupted_delay_inception :
  exists user_rating,
    extract_user_rating (interrupted rated_page)
      (poster_of ["rating"; "-micro"; "rated-7"]) = Ret user_rating
    /\ fst (scrape_item (interrupted rated_page)
              (poster_of ["rating"; "-micro"; "rated-7"])
              (init "marwanmovies")) = Raise KeyboardInterrupt
    /\ movies_data (snd (scrape_item (interrupted rated_page)
                           (poster_of ["rating"; "-micro"; "rated-7"])
                           (init "marwanmovies")))
       = movies_data (init "marwanmovies")
         ++ [merge "inception" (username (init "marwanmovies")) user_rating
               (details_of (Bs4.soup_of rated_page))].
Proof.
  apply (interrupted_delay_keeps_record (interrupted rated_page)
           (poster_of ["rating"; "-micro"; "rated-7"]) "inception"
           (init "marwanmovies") (details_of (Bs4.soup_of rated_page))
           KeyboardInterrupt);
    vm_compute; reflexivity.
Defined.

(* ===================================================================== *)
(** * More on the code: what the records hold *)
(* ===================================================================== *)

Module SlugShape.
Import PyStr PyStrSpec.

Lemma all_in_app p a b : all_in p (a +++ b) <-> all_in p a /\ all_in p b.
Proof.
  induction a as [| c a IH]; simpl.
  - tauto.
  - rewrite IH. tauto.
Qed.

Lemma all_in_occurs p sub s : all_in p s -> occurs_in sub s -> all_in p sub.
Proof.
  intros Hall (a & b & ->).
  apply all_in_app in Hall. destruct Hall as [_ Hall].
  apply all_in_app in Hall. now destruct Hall.
Qed.

(** A link in which [/film/] occurs does not strip to nothing. *)
Lemma stripped_film_nonempty link t :
  occurs_in "/film/" link -> stripped (Ascii.eqb "/") link t -> t <> "".
Proof.
  intros Hocc (a & b & Hlink & Ha & Hb & _) ->.
  assert (Hall : all_in (Ascii.eqb "/") link).
  { rewrite Hlink. apply all_in_app. split; [exact Ha |].
    apply all_in_app. now split. }
  pose proof (all_in_occurs _ _ _ Hall Hocc) as Hfilm.
  simpl in Hfilm. destruct Hfilm as (_ & Hf & _). discriminate.
Qed.

Lemma final_segment_nonempty t seg :
  t <> "" -> ~ ends_in (Ascii.eqb "/") t -> final_segment "/" t seg ->
  seg <> "".
Proof.
  intros Ht Hend (pre & Hpre & Hshape & _) ->.
  rewrite SlugFacts.append_nil_r in Hpre. subst pre.
  destruct Hshape as [-> | [q ->]]; [now apply Ht |].
  apply Hend. exists q, "/"%char. now split.
Qed.

End SlugShape.

Lemma listed_slug_shape it movie_slug :
  listed_slug it = Some movie_slug ->
  movie_slug <> "" /\ ~ PyStrSpec.occurs_in "/" movie_slug.
Proof.
  intro H. apply listed_slug_some in H. destruct H as [Hc Hs].
  apply orb_false_iff in Hc. destruct Hc as [_ Hc].
  apply negb_false_iff, SlugFacts.contains_occurs in Hc.
  destruct (slug_of_returns (Bs4.get "data-target-link" "" it))
    as (slug' & Hs' & Hfinal).
  rewrite Hs in Hs'. injection Hs' as <-.
  pose proof (SlugFacts.strip_with_spec (Ascii.eqb "/")
                (Bs4.get "data-target-link" "" it)) as Hstrip.
  split.
  - apply (SlugShape.final_segment_nonempty
             (PyStr.strip_char "/" (Bs4.get "data-target-link" "" it))).
    + now apply (SlugShape.stripped_film_nonempty
                   (Bs4.get "data-target-link" "" it)).
    + destruct Hstrip as (a & b & _ & _ & _ & _ & Hend). exact Hend.
    + exact Hfinal.
  - destruct Hfinal as (pre & _ & _ & Hno). exact Hno.
Qed.

Section RecordInvariants.

Variable env : Env.

Lemma keeps_records_ok_refl s : keeps_records_ok s s.
Proof. split; auto. Qed.

Lemma keeps_records_ok_trans s1 s2 s3 :
  keeps_records_ok s1 s2 -> keeps_records_ok s2 s3 -> keeps_records_ok s1 s3.
Proof. intros [A1 A2] [B1 B2]. split; [congruence | auto]. Qed.

Lemma same_self_records_ok s s' : same_self s s' -> keeps_records_ok s s'.
Proof.
  intros [A1 A2]. split; [exact A1 |]. unfold records_ok. now rewrite A1, A2.
Qed.

Lemma scrape_item_records_ok it : keeps keeps_records_ok (scrape_item env it).
Proof.
  intro s. destruct (listed_slug it) as [movie_slug |] eqn:Hslug.
  - destruct (already_scraped movie_slug (movies_data s)) eqn:Hseen.
    + rewrite (scrape_item_seen env it movie_slug s Hslug Hseen).
      apply keeps_records_ok_refl.
    + destruct (scrape_item_fresh_data env it movie_slug s Hslug Hseen)
        as (ur & _ & Hdata).
      pose proof (scrape_item_grows env it s) as (Huser & _ & _).
      split; [exact Huser |]. unfold records_ok. rewrite Huser, Hdata.
      destruct (fst (get_movie_details env (film_url movie_slug) s))
        as [[d |] | e]; auto.
      intro Hok. apply Forall_app. split; [exact Hok |].
      constructor; [| constructor].
      destruct (listed_slug_shape it movie_slug Hslug) as [Hne Hno].
      now repeat split.
  - rewrite (scrape_item_discarded env it s Hslug).
    apply keeps_records_ok_refl.
Qed.

Lemma keeps_sourced_refl s : keeps_sourced s s.
Proof. split; [exists []; now rewrite app_nil_r | auto]. Qed.

Lemma keeps_sourced_trans s1 s2 s3 :
  keeps_sourced s1 s2 -> keeps_sourced s2 s3 -> keeps_sourced s1 s3.
Proof.
  intros [[m1 A1] A2] [[m2 B1] B2]. split; [| auto].
  exists (m1 ++ m2). now rewrite B1, A1, app_assoc.
Qed.

Lemma log_request_sourced url s : keeps_sourced s (log_request url s).
Proof.
  split; [now exists [url] |].
  intros H m Hm. simpl. apply in_or_app. left. now apply H.
Qed.

Lemma quiet_sourced s s' : quiet s s' -> keeps_sourced s s'.
Proof.
  intros ([_ Hdata] & Hreq & _). split.
  - exists []. now rewrite app_nil_r.
  - unfold sourced. now rewrite Hdata, Hreq.
Qed.

Lemma sleep_sourced ms : keeps keeps_sourced (sleep env ms).
Proof.
  intro s. split; [exists []; simpl; now rewrite app_nil_r | auto].
Qed.

Lemma get_page_sourced url : keeps keeps_sourced (get_page env url).
Proof. intro s. rewrite get_page_state. apply log_request_sourced. Qed.

Lemma scrape_item_sourced it : keeps keeps_sourced (scrape_item env it).
Proof.
  intro s. destruct (listed_slug it) as [movie_slug |] eqn:Hslug.
  - destruct (already_scraped movie_slug (movies_data s)) eqn:Hseen.
    + rewrite (scrape_item_seen env it movie_slug s Hslug Hseen).
      apply keeps_sourced_refl.
    + destruct (scrape_item_fresh_data env it movie_slug s Hslug Hseen)
        as (ur & _ & Hdata).
      pose proof (scrape_item_fresh_requests env it movie_slug s Hslug Hseen)
        as Hreq.
      split; [now exists [film_url movie_slug] |].
      unfold sourced. rewrite Hreq, Hdata. intros Hsrc m Hm.
      apply in_or_app.
      destruct (fst (get_movie_details env (film_url movie_slug) s))
        as [[d |] | e]; try (left; now apply Hsrc).
      apply in_app_or in Hm. destruct Hm as [Hm | [<- | []]].
      * left. now apply Hsrc.
      * right. now left.
  - rewrite (scrape_item_discarded env it s Hslug).
    apply keeps_sourced_refl.
Qed.

(** The export changes nothing but the files. *)
Lemma quiet_refl s : quiet s s.
Proof. repeat split. Qed.

Lemma quiet_trans s1 s2 s3 : quiet s1 s2 -> quiet s2 s3 -> quiet s1 s3.
Proof.
  intros (A & A1 & A2) (B & B1 & B2).
  split; [now apply same_self_trans with s2 |]. split; congruence.
Qed.

Lemma save_to_csv_quiet filename : keeps quiet (save_to_csv env filename).
Proof.
  assert (Hopen : forall name, keeps quiet (open_file env name)).
  { intros name s. unfold open_file. destruct (open_w env name);
      repeat split. }
  assert (Hwrite : forall name text, keeps quiet (write_file name text)).
  { intros name text s. repeat split. }
  unfold save_to_csv.
  apply (keeps_bind quiet quiet_trans); [apply (keeps_get_self quiet quiet_refl) |].
  intro self. destruct (movies_data self) as [| m data];
    [apply (keeps_ret quiet quiet_refl) |].
  apply (keeps_try_except quiet quiet_trans); [| apply (keeps_ret quiet quiet_refl)].
  apply (keeps_bind quiet quiet_trans); [apply Hopen |]. intros _.
  apply (keeps_bind quiet quiet_trans); [apply Hwrite |]. intros _.
  destruct (Csv.writerows fieldnames (map movie_dict (m :: data))) as [rows ok].
  apply (keeps_bind quiet quiet_trans); [apply Hwrite |]. intros _.
  destruct ok;
    [apply (keeps_ret quiet quiet_refl) | apply (keeps_raise quiet quiet_refl)].
Qed.

Lemma run_call_records_ok c s : keeps_records_ok s (run_call env c s).
Proof.
  destruct c as [section max_pages | sections max_pages | filename]; simpl.
  - apply (lifted_scrape_section env keeps_records_ok
             keeps_records_ok_refl keeps_records_ok_trans);
      try (intros; intro s0; apply same_self_records_ok;
           first [apply get_page_same | apply sleep_same]).
    exact scrape_item_records_ok.
  - apply (lifted_scrape_all_sections env keeps_records_ok
             keeps_records_ok_refl keeps_records_ok_trans);
      try (intros; intro s0; apply same_self_records_ok;
           first [apply get_page_same | apply sleep_same]).
    exact scrape_item_records_ok.
  - apply same_self_records_ok, save_to_csv_same.
Qed.

Lemma run_call_sourced c s : keeps_sourced s (run_call env c s).
Proof.
  destruct c as [section max_pages | sections max_pages | filename]; simpl.
  - apply (lifted_scrape_section env keeps_sourced
             keeps_sourced_refl keeps_sourced_trans);
      try (intros; first [apply get_page_sourced | apply sleep_sourced]).
    exact scrape_item_sourced.
  - apply (lifted_scrape_all_sections env keeps_sourced
             keeps_sourced_refl keeps_sourced_trans);
      try (intros; first [apply get_page_sourced | apply sleep_sourced]).
    exact scrape_item_sourced.
  - apply quiet_sourced, save_to_csv_quiet.
Qed.

End RecordInvariants.

(** X7. In every state of a run, each record carries the scraper's
    username, and its identifier is not empty and holds no slash. *)
Theorem records_well_formed : forall env s,
  reachable env s ->
  forall m, In m (movies_data s) ->
    movie_username m = username s
    /\ movie_id m <> ""
    /\ ~ PyStrSpec.occurs_in "/" (movie_id m).
Proof.
  intros env s Hreach.
  assert (Hok : records_ok s).
  { induction Hreach as [user | s c _ IH]; [constructor |].
    now apply (run_call_records_ok env c s). }
  intros m Hm. unfold records_ok in Hok. rewrite Forall_forall in Hok.
  exact (Hok m Hm).
Qed.

Lemma records_well_formed_after_films :
  movie_username (inception "3.5") = username after_films
  /\ movie_id (inception "3.5") <> ""
  /\ ~ PyStrSpec.occurs_in "/" (movie_id (inception "3.5")).
Proof.
  apply (records_well_formed (serving rated_page) after_films).
  - apply reach_call, reach_init.
  - vm_compute. now left.
Defined.

(** X8. In every state of a run, the detail page of each record is among
    the requests made: no record without its fetch. *)
Theorem records_sourced : forall env s,
  reachable env s ->
  forall m, In m (movies_data s) -> In (film_url (movie_id m)) (requests s).
Proof.
  intros env s Hreach.
  induction Hreach as [user | s c _ IH]; [intros m [] |].
  now apply (run_call_sourced env c s).
Qed.

Lemma records_sourced_after_films :
  In (film_url (movie_id (inception "3.5"))) (requests after_films).
Proof.
  apply (records_sourced (serving rated_page) after_films).
  - apply reach_call, reach_init.
  - vm_compute. now left.
Defined.

(** ** The fields of a record *)

Module FieldFacts.
Import PyStr PyStrSpec.

Lemma span_with_all p s : all_in p (fst (span_with p s)).
Proof.
  induction s as [| c s IH]; simpl; [exact I |].
  destruct (p c) eqn:Hc; [| exact I].
  destruct (span_with p s) as [run rest]. simpl in *. now split.
Qed.

Lemma span_with_head p c s :
  p c = true -> fst (span_with p (String c s)) <> "".
Proof.
  intro Hc. simpl. rewrite Hc. destruct (span_with p s). discriminate.
Qed.

Lemma search_digits_commas_cons c s :
  search_digits_commas (String c s)
  = if digit_or_comma c
    then Some (fst (span_with digit_or_comma (String c s)))
    else search_digits_commas s.
Proof. reflexivity. Qed.

Lemma search_digits_commas_run s : forall g,
  search_digits_commas s = Some g -> g <> "" /\ all_in digit_or_comma g.
Proof.
  induction s as [| c s IH]; intro g; [discriminate |].
  rewrite search_digits_commas_cons.
  destruct (digit_or_comma c) eqn:Hc; [| apply IH].
  intros [= <-]. split.
  - exact (span_with_head digit_or_comma c s Hc).
  - exact (span_with_all digit_or_comma (String c s)).
Qed.

Lemma replace_comma_digits g :
  all_in digit_or_comma g -> all_in isdecimal (replace "," "" g).
Proof.
  induction g as [| c g IH]; simpl; [auto |].
  intros [Hc Hg]. destruct (Ascii.eqb_spec c ",") as [-> | N]; simpl.
  - now apply IH.
  - split; [| now apply IH].
    unfold digit_or_comma in Hc. apply orb_true_iff in Hc.
    destruct Hc as [Hc | Hc]; [exact Hc |].
    apply Ascii.eqb_eq in Hc. now elim N.
Qed.

Lemma search_out_of_from_cons in_run c s :
  search_out_of_from in_run (String c s)
  = if digit_or_dot c then
      if in_run then search_out_of_from true s
      else if spaces_then_out_of (snd (span_with digit_or_dot (String c s)))
           then Some (fst (span_with digit_or_dot (String c s)))
           else search_out_of_from true s
    else search_out_of_from false s.
Proof.
  cbn [search_out_of_from]. fold (digit_or_dot c).
  destruct (digit_or_dot c); [| reflexivity].
  destruct in_run; [reflexivity |].
  change (fun x : ascii => isdecimal x || Ascii.eqb x ".") with digit_or_dot.
  destruct (span_with digit_or_dot (String c s)); reflexivity.
Qed.

Lemma search_out_of_run in_run s g :
  search_out_of_from in_run s = Some g -> g <> "" /\ all_in digit_or_dot g.
Proof.
  revert in_run g. induction s as [| c s IH]; intros in_run g;
    [discriminate |].
  rewrite search_out_of_from_cons.
  destruct (digit_or_dot c) eqn:Hc; [| apply IH].
  destruct in_run; [apply IH |].
  destruct (spaces_then_out_of _); [| apply IH].
  intros [= <-]. split.
  - exact (span_with_head digit_or_dot c s Hc).
  - exact (span_with_all digit_or_dot (String c s)).
Qed.

Lemma replace_without old new s :
  all_in (fun c => negb (Ascii.eqb c old)) new ->
  all_in (fun c => negb (Ascii.eqb c old)) (replace old new s).
Proof.
  intro Hnew. induction s as [| c s IH]; simpl; [exact I |].
  destruct (Ascii.eqb c old) eqn:Hc.
  - apply SlugShape.all_in_app. now split.
  - simpl. rewrite Hc. now split.
Qed.

Lemma all_in_no_char old s :
  all_in (fun c => negb (Ascii.eqb c old)) s ->
  ~ occurs_in (String old "") s.
Proof.
  intros Hall Hocc.
  pose proof (SlugShape.all_in_occurs _ _ _ Hall Hocc) as H.
  simpl in H. destruct H as [H _]. now rewrite Ascii.eqb_refl in H.
Qed.

(** *** [int] of a field without a dash *)

Lemma int_cases max s :
  int max s
  = match strip_with int_isspace s with
    | EmptyString => int_unsigned max EmptyString
    | String c d =>
        if Ascii.eqb c "-" then option_map Z.opp (int_unsigned max d)
        else if Ascii.eqb c "+" then int_unsigned max d
        else int_unsigned max (String c d)
    end.
Proof.
  unfold int. destruct (strip_with int_isspace s) as [| c d]; [reflexivity |].
  destruct c as [[] [] [] [] [] [] [] []]; reflexivity.
Qed.

Lemma digit_value_nonneg c : isdecimal c = true -> 0 <= digit_value c.
Proof.
  unfold isdecimal, digit_value. intro H. apply andb_true_iff in H.
  destruct H as [H _]. apply N.leb_le in H. lia.
Qed.

Lemma int_digits_nonneg s : forall acc count after v n,
  0 <= acc -> int_digits acc count after s = Some (v, n) -> 0 <= v.
Proof.
  induction s as [| c s IH]; intros acc count after v n Hacc;
    cbn [int_digits].
  - destruct after; [| discriminate]. now intros [= <- _].
  - destruct (isdecimal c) eqn:Hc.
    + apply IH. pose proof (digit_value_nonneg c Hc). lia.
    + destruct (Ascii.eqb c "_"); [| discriminate].
      destruct after; [| discriminate]. now apply IH.
Qed.

Lemma int_unsigned_nonneg max s v : int_unsigned max s = Some v -> 0 <= v.
Proof.
  unfold int_unsigned.
  destruct (int_digits 0 0 false s) as [[v' n] |] eqn:H; [| discriminate].
  destruct (_ && _); [discriminate |]. intros [= <-].
  apply (int_digits_nonneg s 0 0%nat false v' n); [lia | exact H].
Qed.

Lemma int_nonneg max seg v :
  contains "-" seg = false -> int max seg = Some v -> 0 <= v.
Proof.
  intros Hno. rewrite int_cases.
  destruct (SlugFacts.strip_with_spec int_isspace seg) as (a & b & Hseg & _).
  destruct (strip_with int_isspace seg) as [| c d].
  - apply int_unsigned_nonneg.
  - destruct (Ascii.eqb_spec c "-") as [-> | _].
    + exfalso. apply SlugFacts.not_occurs_contains in Hno. apply Hno.
      exists a, (d +++ b). exact Hseg.
    + destruct (Ascii.eqb c "+"); apply int_unsigned_nonneg.
Qed.

End FieldFacts.

Lemma rated_loop_value env classes r :
  rated_loop env classes = Some r ->
  exists v, 0 <= v /\ PyStr.str_half (float_str_big env) v = Some r.
Proof.
  induction classes as [| cls rest IH]; simpl; [discriminate |].
  destruct (PyStr.startswith "rated-" cls); [| exact IH].
  destruct (decode_rated env cls) as [s |] eqn:Hdec; [| exact IH].
  intros [= <-]. unfold decode_rated, item in Hdec.
  destruct (nth_error (PyStr.split "-" cls) 1) as [seg |] eqn:Hseg;
    [| discriminate].
  simpl in Hdec. unfold py_int in Hdec.
  destruct (PyStr.int (int_max_str_digits env) seg) as [v |] eqn:Hint;
    [| discriminate].
  simpl in Hdec. unfold py_str_half in Hdec.
  destruct (PyStr.str_half (float_str_big env) v) as [h |] eqn:Hh;
    [| discriminate].
  injection Hdec as <-. exists v. split; [| exact Hh].
  apply (FieldFacts.int_nonneg (int_max_str_digits env) seg); [| exact Hint].
  pose proof (SlugFacts.split_fields "-" cls) as Hfields.
  rewrite Forall_forall in Hfields. apply Hfields.
  now apply nth_error_In with 1%nat.
Qed.

(** X9. The user rating is the marker [Not Rated] or [str(v / 2.0)] for
    an integer [v] that is not negative: a dash never reaches [int] as a
    sign, since the token is split at its dashes. Nothing bounds [v] from
    above. *)
Theorem extract_user_rating_values : forall env poster,
  exists r,
    extract_user_rating env poster = Ret r
    /\ (r = "Not Rated"
        \/ exists v, 0 <= v /\ PyStr.str_half (float_str_big env) v = Some r).
Proof.
  intros env poster. unfold extract_user_rating.
  destruct (Bs4.find_parent "li" poster) as [parent |]; [| eauto].
  destruct (Bs4.find _ parent) as [rating_span |]; [| eauto].
  destruct (rated_loop env (Bs4.get_class rating_span)) as [r |] eqn:Hloop;
    [| eauto].
  exists r. split; [reflexivity |]. right.
  exact (rated_loop_value env _ r Hloop).
Qed.

Example rated_99 :
  extract_user_rating (serving rated_page) (poster_of ["rated-99"])
  = Ret "49.5".
Proof. vm_compute. reflexivity. Qed.

Example rated_minus_3 :
  extract_user_rating (serving rated_page) (poster_of ["rated--3"])
  = Ret "Not Rated".
Proof. vm_compute. reflexivity. Qed.

(** X10. The numeric fields of the details. The popularity is made of
    decimal digits only, so it is never N/A; the vote count is N/A or
    made of digits only, the separators being removed; the average is N/A
    or a non-empty run of digits and dots. *)
Theorem numeric_fields : forall soup,
  PyStrSpec.all_in PyStr.isdecimal (extract_popularity soup)
  /\ (extract_vote_count soup = "N/A"
      \/ PyStrSpec.all_in PyStr.isdecimal (extract_vote_count soup))
  /\ (extract_vote_average soup = "N/A"
      \/ (extract_vote_average soup <> ""
          /\ PyStrSpec.all_in digit_or_dot (extract_vote_average soup))).
Proof.
  intro soup. split; [| split].
  - unfold extract_popularity.
    destruct (Bs4.find _ soup) as [fans_link |]; [| now repeat split].
    destruct (PyStr.search_digits_commas _) as [g |] eqn:Hg;
      [| now repeat split].
    apply FieldFacts.replace_comma_digits.
    now apply (FieldFacts.search_digits_commas_run _ g Hg).
  - unfold extract_vote_count.
    destruct (Bs4.find _ soup) as [histogram_link |]; [| now left].
    destruct (PyStr.search_digits_commas _) as [g |] eqn:Hg; [| now left].
    right. apply FieldFacts.replace_comma_digits.
    now apply (FieldFacts.search_digits_commas_run _ g Hg).
  - unfold extract_vote_average.
    destruct (Bs4.find _ soup) as [rating_meta |]; [| now left].
    destruct (PyStr.search_out_of _) as [g |] eqn:Hg; [| now left].
    right. exact (FieldFacts.search_out_of_run false _ g Hg).
Qed.

(** X11. The text fields of the details. The title holds no no-break
    space, and the year neither begins nor ends with white space. *)
Theorem text_fields : forall soup,
  ~ PyStrSpec.occurs_in (String PyStr.nbsp "") (extract_movie_name soup)
  /\ ~ PyStrSpec.starts_in PyStr.isspace (extract_year soup)
  /\ ~ PyStrSpec.ends_in PyStr.isspace (extract_year soup).
Proof.
  intro soup. split.
  - apply FieldFacts.all_in_no_char. unfold extract_movie_name.
    destruct (Bs4.find _ soup) as [title_elem |].
    + apply FieldFacts.replace_without. now repeat split.
    + now repeat split.
  - unfold extract_year.
    destruct (Bs4.find _ soup) as [year_elem |].
    + destruct (SlugFacts.strip_with_spec PyStr.isspace (Bs4.text year_elem))
        as (a & b & _ & _ & _ & Hs & He).
      now split.
    + destruct (SlugFacts.strip_with_spec PyStr.isspace "N/A")
        as (a & b & _ & _ & _ & Hs & He).
      now split.
Qed.

(* ===================================================================== *)
(** * More on the code: failures *)
(* ===================================================================== *)

Section Returning.

Variable env : Env.
Hypothesis env_benign : benign env.

Lemma returns_ret {A : Type} (a : A) : always_returns (ret a).
Proof. intro s. now exists a. Qed.

Lemma returns_bind {A B : Type} (m : M A) (k : A -> M B) :
  always_returns m -> (forall a, always_returns (k a)) ->
  always_returns (bind m k).
Proof.
  intros Hm Hk s. unfold bind. destruct (Hm s) as [a Ha].
  destruct (m s) as [[a' | e] s']; simpl in Ha; [| discriminate].
  apply Hk.
Qed.

Lemma returns_for_each {A : Type} (l : list A) (body : A -> M unit) :
  (forall a, always_returns (body a)) -> always_returns (for_each l body).
Proof.
  intro Hb. induction l as [| x l IH]; simpl.
  - apply returns_ret.
  - apply returns_bind; [apply Hb | intros _; exact IH].
Qed.

Lemma get_page_returns url : always_returns (get_page env url).
Proof.
  destruct env_benign as (Hget & Hparse & _).
  intro s. rewrite get_page_eq.
  destruct (requests_get env (length (requests s)) url) as [r | e] eqn:Hr.
  - destruct (_ && _); [now eexists |].
    destruct (html_parser env (content r)) as [root | e] eqn:Hp;
      [now eexists |].
    rewrite (Hparse _ e Hp). now eexists.
  - rewrite (Hget _ _ e Hr). now eexists.
Qed.

Lemma get_movie_details_returns url : always_returns (get_movie_details env url).
Proof.
  intro s. rewrite get_movie_details_eq.
  destruct (get_page_returns url s) as [a Ha].
  destruct (get_page env url s) as [[[soup |] | e] s1]; simpl in Ha;
    [now eexists | now eexists | discriminate].
Qed.

Lemma sleep_returns ms : always_returns (sleep env ms).
Proof.
  destruct env_benign as (_ & _ & Hsleep).
  intro s. exists tt. simpl. apply Hsleep.
Qed.

Lemma scrape_item_returns it : always_returns (scrape_item env it).
Proof.
  intro s. destruct (listed_slug it) as [movie_slug |] eqn:Hslug.
  - destruct (already_scraped movie_slug (movies_data s)) eqn:Hseen.
    + rewrite (scrape_item_seen env it movie_slug s Hslug Hseen). now eexists.
    + destruct (scrape_item_fresh env it movie_slug s Hslug Hseen)
        as (ur & _ & ->).
      destruct (get_movie_details_returns (film_url movie_slug) s) as [a ->].
      destruct a as [d |]; apply sleep_returns.
  - rewrite (scrape_item_discarded env it s Hslug). now eexists.
Qed.

Lemma scrape_section_returns section max_pages :
  always_returns (scrape_section env section max_pages).
Proof.
  unfold scrape_section. apply returns_bind.
  - unfold get_num_pages. apply returns_bind; [intro s; now eexists |].
    intro self. apply returns_bind; [apply get_page_returns |].
    intros [soup |]; apply returns_ret.
  - intro found. apply returns_bind.
    + apply returns_for_each. intro page. unfold scrape_page.
      apply returns_bind; [intro s; now eexists |]. intro self.
      apply returns_bind; [apply get_page_returns |].
      intros [soup |]; [| apply returns_ret].
      destruct (movie_items_of soup) as [| i0 items]; [apply returns_ret |].
      apply returns_bind.
      * apply returns_for_each. exact scrape_item_returns.
      * intros _. destruct (_ <? _); [apply sleep_returns | apply returns_ret].
    + intros _. apply returns_bind; [intro s; now eexists |].
      intro self. apply returns_ret.
Qed.

End Returning.

(** X12. Failures of the transport never abort a section. In a world
    where [requests.get] and the parser raise nothing but
    [RequestException]s and no sleep is interrupted, [scrape_section]
    returns from every state, and so does every detail fetch. *)
Theorem transport_failures_never_abort : forall env,
  benign env ->
  (forall section max_pages s,
     exists r, fst (scrape_section env section max_pages s) = Ret r)
  /\ (forall movie_url s,
        exists d, fst (get_movie_details env movie_url s) = Ret d).
Proof.
  intros env Hbenign. split.
  - intros section max_pages. apply scrape_section_returns, Hbenign.
  - intros movie_url. apply get_movie_details_returns, Hbenign.
Qed.

(** A site that answers 503 to everything. *)
Lemma service_unavailable_returns :
  (forall section max_pages s,
     exists r,
       fst (scrape_section (answering 503 rated_page) section max_pages s)
       = Ret r)
  /\ (forall movie_url s,
        exists d,
          fst (get_movie_details (answering 503 rated_page) movie_url s)
          = Ret d).
Proof.
  apply (transport_failures_never_abort (answering 503 rated_page)).
  repeat split; intros; discriminate.
Defined.

Example service_unavailable_section :
  scrape_section (answering 503 rated_page) "films" None (init "marwanmovies")
  = (Ret [],
     mkState "marwanmovies" []
       ["https://letterboxd.com/marwanmovies/films/";
        "https://letterboxd.com/marwanmovies/films/page/1/"] [] []).
Proof. vm_compute. reflexivity. Qed.

(** What [save_to_csv] does once the file is open. *)
Lemma save_to_csv_written env filename s :
  movies_data s <> [] ->
  open_w env (destination env filename s) = Ret tt ->
  save_to_csv env filename s
  = (Ret (Some (destination env filename s)),
     put_file (destination env filename s)
       (header_line +++ String.concat "" (map record_line (movies_data s)))
       (put_file (destination env filename s) header_line
          (put_file (destination env filename s) "" s))).
Proof.
  intros Hdata Hopen. unfold save_to_csv, bind at 1, get_self.
  destruct (movies_data s) as [| m data] eqn:Hm; [now elim Hdata |].
  fold (destination env filename s).
  rewrite CsvFacts.writerows_movies, CsvFacts.writeheader_fieldnames.
  unfold try_except, bind, open_file. rewrite Hopen.
  unfold write_file, read_file, put_file. simpl.
  rewrite !String.eqb_refl. simpl. now rewrite Hm.
Qed.

(** X13. When there is nothing to export, [save_to_csv] returns [None]
    and changes nothing. When the file cannot be opened, no file is
    created and nothing changes either: the result is [None] if what
    [open] raised is an [Exception], and the exception itself if not. In
    every case the export leaves the scraper, the requests and the sleeps
    as they were. *)
Theorem save_to_csv_no_export : forall env filename s,
  (movies_data s = [] -> save_to_csv env filename s = (Ret None, s))
  /\ (forall e,
        movies_data s <> [] ->
        open_w env (destination env filename s) = Raise e ->
        save_to_csv env filename s
        = (if is_Exception e then Ret None else Raise e, s))
  /\ quiet s (snd (save_to_csv env filename s)).
Proof.
  intros env filename s. split; [| split].
  - intro Hdata. unfold save_to_csv, bind, get_self. now rewrite Hdata.
  - intros e Hdata Hopen. unfold save_to_csv, bind at 1, get_self.
    destruct (movies_data s) as [| m data] eqn:Hm; [now elim Hdata |].
    fold (destination env filename s).
    unfold try_except, bind at 1, open_file. rewrite Hopen.
    destruct (is_Exception e); reflexivity.
  - apply save_to_csv_quiet.
Qed.

Example save_to_csv_read_only :
  save_to_csv (read_only rated_page) None with_heat = (Ret None, with_heat).
Proof. reflexivity. Qed.

Example save_to_csv_default_name :
  fst (save_to_csv (serving rated_page) None with_heat)
  = Ret (Some "marwanmovies_letterboxd_20240101_120000.csv").
Proof. vm_compute. reflexivity. Qed.

(* ===================================================================== *)
(** * More on the code: the quick test *)
(* ===================================================================== *)

Lemma scrape_section_value env section max_pages s r s' :
  scrape_section env section max_pages s = (Ret r, s') -> r = movies_data s'.
Proof.
  unfold scrape_section, bind.
  destruct (get_num_pages env section s) as [[found | e] s1]; [| discriminate].
  destruct (for_each _ _ s1) as [[[] | e] s2]; [| discriminate].
  unfold get_self, ret. now intros [= <- <-].
Qed.

Lemma main_eq env s :
  main env s
  = match scrape_section env "films" (Some 2) s with
    | (Raise e, s1) => (Raise e, s1)
    | (Ret _, s1) =>
        match movies_data s1 with
        | [] => (Ret tt, s1)
        | _ :: _ =>
            match save_to_csv env (Some "test_output.csv") s1 with
            | (Raise e, s2) => (Raise e, s2)
            | (Ret _, s2) => (Ret tt, s2)
            end
        end
    end.
Proof.
  unfold main, bind at 1.
  destruct (scrape_section env "films" (Some 2) s) as [[r | e] s1];
    [| reflexivity].
  unfold bind at 1, get_self.
  destruct (movies_data s1) as [| m data]; [reflexivity |].
  unfold bind, ret.
  destruct (save_to_csv env (Some "test_output.csv") s1) as [[o | e] s2];
    reflexivity.
Qed.

(** X14. The quick test. The records it ends with are those of its one
    call of [scrape_section] on the films with a cap of two pages. When
    it ends with none, no file was written. When the scrape returned
    records and the file opens, the script returns and
    [test_output.csv] holds the header and their lines. *)
Theorem quick_test_exports_what_it_found : forall env,
  movies_data (snd (run_main env))
  = movies_data (snd (scrape_section env "films" (Some 2) (init "marwanmovies")))
  /\ (movies_data (snd (run_main env)) = [] -> files (snd (run_main env)) = [])
  /\ (forall r,
        fst (scrape_section env "films" (Some 2) (init "marwanmovies")) = Ret r ->
        r <> [] ->
        open_w env "test_output.csv" = Ret tt ->
        fst (run_main env) = Ret tt
        /\ read_file "test_output.csv" (snd (run_main env))
           = Some (header_line +++ String.concat "" (map record_line r))).
Proof.
  intro env. unfold run_main. rewrite main_eq.
  pose proof (scrape_section_confined env "films" (Some 2) (init "marwanmovies"))
    as (Hfiles & _).
  destruct (scrape_section env "films" (Some 2) (init "marwanmovies"))
    as [[r | e] s1] eqn:Hrun; simpl in Hfiles.
  - apply scrape_section_value in Hrun. subst r.
    destruct (movies_data s1) as [| m data] eqn:Hm.
    + simpl. rewrite Hm. split; [reflexivity |]. split; [now intros _ |].
      intros r [= <-] Hne. now elim Hne.
    + pose proof (save_to_csv_quiet env (Some "test_output.csv") s1)
        as ([_ Hdata] & _).
      assert (Hsame : movies_data
                        (snd (match save_to_csv env (Some "test_output.csv") s1 with
                              | (Ret _, s2) => (Ret tt, s2)
                              | (Raise e, s2) => (Raise e, s2)
                              end)) = m :: data).
      { rewrite <- Hm, <- Hdata.
        destruct (save_to_csv env (Some "test_output.csv") s1) as [[o | e] s2];
          reflexivity. }
      split; [simpl; now rewrite Hsame, Hm |].
      split; [rewrite Hsame; discriminate |].
      intros r [= <-] Hne Hopen.
      rewrite (save_to_csv_written env (Some "test_output.csv") s1);
        [| now rewrite Hm | exact Hopen].
      simpl. rewrite Hm. split; [reflexivity |].
      unfold read_file. simpl. reflexivity.
  - simpl. split; [reflexivity |]. split; [intros _; exact Hfiles |].
    intros r H. discriminate H.
Qed.

Example quick_test_found :
  read_file "test_output.csv" (snd (run_main (serving rated_page)))
  = Some (header_line +++ record_line (inception "3.5")).
Proof. vm_compute. reflexivity. Qed.

Example quick_test_offline :
  run_main offline
  = (Ret tt,
     mkState "marwanmovies" []
       ["https://letterboxd.com/marwanmovies/films/";
        "https://letterboxd.com/marwanmovies/films/page/1/"] [] []).
Proof. vm_compute. reflexivity. Qed.

(* ===================================================================== *)
(** * More on the code: layers and composition *)
(* ===================================================================== *)

(** X15. A page the parser rejects, by layer. [get_page] lets the
    exception through, having logged its request. On a detail page
    [get_movie_details] turns it into [None] when it is an [Exception],
    so the film is only skipped; on the first page of a section or on a
    listing page nothing catches it, and the page count, the page and the
    whole section raise it. *)
Theorem parser_rejection_by_layer : forall env url s resp e,
  requests_get env (length (requests s)) url = Ret resp ->
  ~ 400 <= status_code resp < 600 ->
  html_parser env (content resp) = Raise e ->
  is_RequestException e = false ->
  get_page env url s = (Raise e, log_request url s)
  /\ get_movie_details env url s
     = (if is_Exception e then Ret None else Raise e, log_request url s)
  /\ (forall section,
        url = section_url (username s) section ->
        get_num_pages env section s = (Raise e, log_request url s)
        /\ forall max_pages,
             scrape_section env section max_pages s
             = (Raise e, log_request url s))
  /\ (forall section total page,
        url = page_url (username s) section page ->
        scrape_page env section total page s = (Raise e, log_request url s)).
Proof.
  intros env url s resp e Hget Hstatus Hparse Hreq.
  assert (Hpage : get_page env url s = (Raise e, log_request url s)).
  { rewrite get_page_eq, Hget.
    replace ((400 <=? status_code resp) && (status_code resp <? 600)) with false.
    - now rewrite Hparse, Hreq.
    - symmetry. apply andb_false_iff.
      destruct (Z.leb_spec 400 (status_code resp)); [right | now left].
      apply Z.ltb_ge. lia. }
  split; [exact Hpage |]. split; [| split].
  - rewrite get_movie_details_eq, Hpage. now destruct (is_Exception e).
  - intros section ->.
    assert (Hnum : get_num_pages env section s
                   = (Raise e, log_request (section_url (username s) section) s))
      by now rewrite get_num_pages_eq, Hpage.
    split; [exact Hnum |]. intro max_pages.
    unfold scrape_section, bind at 1. now rewrite Hnum.
  - intros section total page ->. now rewrite scrape_page_eq, Hpage.
Qed.

Lemma parser_rejection_reviews :
  scrape_section (reviews_rejected rated_page) "reviews" None
                 (init "marwanmovies")
  = (Raise ParserRejectedMarkup,
     log_request "https://letterboxd.com/marwanmovies/reviews/"
                 (init "marwanmovies")).
Proof.
  refine (proj2 (proj1 (proj2 (proj2
            (parser_rejection_by_layer (reviews_rejected rated_page)
               "https://letterboxd.com/marwanmovies/reviews/"
               (init "marwanmovies") (mkResponse 200 "<reviews")
               ParserRejectedMarkup _ _ _ _))) "reviews" _) None).
  - reflexivity.
  - simpl. lia.
  - reflexivity.
  - reflexivity.
  - reflexivity.
Defined.

Section PageDelay.

Variable env : Env.

Lemma film_delays_only_refl s : film_delays_only s s.
Proof. exists []. rewrite app_nil_r. auto. Qed.

Lemma film_delays_only_trans s1 s2 s3 :
  film_delays_only s1 s2 -> film_delays_only s2 s3 -> film_delays_only s1 s3.
Proof.
  intros (n1 & A1 & A2) (n2 & B1 & B2). exists (n1 ++ n2).
  rewrite B1, A1, app_assoc. split; [reflexivity |].
  apply Forall_app. now split.
Qed.

Lemma scrape_item_film_delays it : keeps film_delays_only (scrape_item env it).
Proof.
  intro s. rewrite scrape_item_eq. cbv zeta.
  destruct (_ || _); [apply film_delays_only_refl |].
  destruct (slug_of _) as [slug | e]; [| apply film_delays_only_refl].
  destruct (already_scraped slug (movies_data s));
    [apply film_delays_only_refl |].
  destruct (extract_user_rating env it) as [ur | e];
    [| apply film_delays_only_refl].
  pose proof (get_movie_details_state env (film_url slug) s) as Hst.
  destruct (get_movie_details env (film_url slug) s) as [[[d |] | e] s1];
    simpl in Hst; subst s1; simpl.
  - exists [1500]. split; [reflexivity | now constructor].
  - exists [1500]. split; [reflexivity | now constructor].
  - exists []. simpl. rewrite app_nil_r. auto.
Qed.

End PageDelay.

(** X16. No wait after the last page: on a page whose number is not below
    the total, the only sleeps are the film delays of 1.5 seconds. On an
    earlier page that holds film components, once the items are done
    without an exception the page ends with the sleep of 2 seconds. *)
Theorem page_delay_not_after_last : forall env section total page s,
  (total <= page ->
   film_delays_only s (snd (scrape_page env section total page s)))
  /\ (forall soup s2,
        page < total ->
        fst (get_page env (page_url (username s) section page) s)
        = Ret (Some soup) ->
        movie_items_of soup <> [] ->
        for_each (movie_items_of soup) (scrape_item env)
                 (log_request (page_url (username s) section page) s)
        = (Ret tt, s2) ->
        scrape_page env section total page s
        = (time_sleep env (length (sleeps s2)), log_sleep 2000 s2)).
Proof.
  intros env section total page s. rewrite scrape_page_eq.
  pose proof (get_page_state env (page_url (username s) section page) s) as Hst.
  assert (Hreq : film_delays_only s
                   (log_request (page_url (username s) section page) s))
    by (exists []; simpl; rewrite app_nil_r; auto).
  destruct (get_page env (page_url (username s) section page) s)
    as [[[soup |] | e] s1]; simpl in Hst; subst s1; split;
    try (intros; exact Hreq);
    try (intros soup' s2 _ H; discriminate H).
  - intro Hlast.
    destruct (movie_items_of soup) as [| i0 items]; [exact Hreq |].
    eapply film_delays_only_trans; [exact Hreq |].
    apply (keeps_bind film_delays_only film_delays_only_trans).
    + apply (keeps_for_each film_delays_only film_delays_only_refl
               film_delays_only_trans).
      apply scrape_item_film_delays.
    + intros _. replace (page <? total) with false
        by (symmetry; apply Z.ltb_ge; lia).
      apply (keeps_ret film_delays_only film_delays_only_refl).
  - intros soup' s2 Hlt H Hitems Hloop. injection H as <-.
    destruct (movie_items_of soup) as [| i0 items]; [now elim Hitems |].
    unfold bind. rewrite Hloop.
    replace (page <? total) with true by (symmetry; apply Z.ltb_lt; lia).
    reflexivity.
Qed.

Lemma last_page_of_films :
  film_delays_only (init "marwanmovies")
    (snd (scrape_page (serving rated_page) "films" 1 1 (init "marwanmovies"))).
Proof.
  apply (proj1 (page_delay_not_after_last (serving rated_page) "films" 1 1
                  (init "marwanmovies"))).
  lia.
Defined.

Example first_page_of_two :
  sleeps (snd (scrape_page (serving rated_page) "films" 2 1
                 (init "marwanmovies")))
  = [1500; 2000].
Proof. vm_compute. reflexivity. Qed.

(** X17. The record of a new film, column by column. When the detail
    page of a new slug is fetched, the item appends one record: the slug,
    the scraper's username, the title, year and genres read in the page,
    the rating read in the listing, then the popularity, the average and
    the vote count read in the page. *)
Theorem record_of_new_film : forall env it movie_slug s soup,
  listed_slug it = Some movie_slug ->
  already_scraped movie_slug (movies_data s) = false ->
  fst (get_page env (film_url movie_slug) s) = Ret (Some soup) ->
  exists user_rating,
    extract_user_rating env it = Ret user_rating
    /\ movies_data (snd (scrape_item env it s))
       = movies_data s
         ++ [mkMovie movie_slug (username s) (extract_movie_name soup)
               (extract_year soup) (extract_genres soup) user_rating
               (extract_popularity soup) (extract_vote_average soup)
               (extract_vote_count soup)].
Proof.
  intros env it movie_slug s soup Hslug Hnew Hpage.
  destruct (scrape_item_fresh_data env it movie_slug s Hslug Hnew)
    as (ur & Hur & Hdata).
  exists ur. split; [exact Hur |]. rewrite Hdata, get_movie_details_eq.
  destruct (get_page env (film_url movie_slug) s) as [[[soup' |] | e] s1];
    simpl in Hpage; try discriminate.
  injection Hpage as ->. reflexivity.
Qed.

Lemma record_of_heat :
  exists user_rating,
    extract_user_rating (serving title_only_page)
      (poster_of ["rating"; "rated-9"]) = Ret user_rating
    /\ movies_data (snd (scrape_item (serving title_only_page)
                           (poster_of ["rating"; "rated-9"])
                           (init "marwanmovies")))
       = movies_data (init "marwanmovies")
         ++ [mkMovie "inception" (username (init "marwanmovies"))
               (extract_movie_name (Bs4.soup_of title_only_page))
               (extract_year (Bs4.soup_of title_only_page))
               (extract_genres (Bs4.soup_of title_only_page)) user_rating
               (extract_popularity (Bs4.soup_of title_only_page))
               (extract_vote_average (Bs4.soup_of title_only_page))
               (extract_vote_count (Bs4.soup_of title_only_page))].
Proof.
  apply (record_of_new_film (serving title_only_page)
           (poster_of ["rating"; "rated-9"]) "inception"
           (init "marwanmovies") (Bs4.soup_of title_only_page));
    vm_compute; reflexivity.
Defined.

Example record_of_heat_value :
  movies_data (snd (scrape_item (serving title_only_page)
                      (poster_of ["rating"; "rated-9"]) (init "marwanmovies")))
  = [mkMovie "inception" "marwanmovies" "Heat" "N/A" "N/A" "4.5" "0" "N/A" "N/A"].
Proof. vm_compute. reflexivity. Qed.

(* ===================================================================== *)
(** * The user rating, value and all *)
(* ===================================================================== *)

(** What the Standard Library prints for an integer, it reads back. *)
Lemma int_of_string_of_int z :
  option_map Z.of_int (NilZero.int_of_string (NilZero.string_of_int (Z.to_int z)))
  = Some z.
Proof.
  rewrite NilZero.isi.
  - simpl. now rewrite DecimalZ.of_to.
  - intro H. pose proof (f_equal Z.of_int H) as Hz.
    rewrite DecimalZ.of_to in Hz. simpl in Hz. subst z. discriminate H.
  - intro H. pose proof (f_equal Z.of_int H) as Hz.
    rewrite DecimalZ.of_to in Hz. simpl in Hz. subst z. discriminate H.
Qed.

Lemma numeral_of_half_printed v :
  RatingSpec.numeral_of_half v
    (NilZero.string_of_int (Z.to_int (v / 2))
     +++ (if Z.even v then ".0" else ".5")).
Proof.
  exists (NilZero.string_of_int (Z.to_int (v / 2))).
  split; [reflexivity | apply int_of_string_of_int].
Qed.

(** C2. [extract_user_rating] never raises. It answers [Not Rated] when
    the poster has no enclosing [li], when that [li] holds no rating
    indicator, or when the loop passes over every class token of the
    indicator. Let [c] be the first token it does not pass over, and [v]
    the integer its field reads as. Then [v] is not negative. When [v] is
    at most 2^53 the answer is the numeral of [v / 2] with one decimal:
    the integer part is the quotient of [v] by 2 as the Standard Library
    prints it, the decimal is 0 for an even [v] and 5 for an odd one, and
    that numeral reads back as [v / 2]. Beyond 2^53 the answer is what
    the floats of the platform give for [str(v / 2.0)]. *)
Theorem extract_user_rating_decodes : forall env poster,
  (exists r, extract_user_rating env poster = Ret r)
  /\ (RatingSpec.no_parent "li" poster ->
      extract_user_rating env poster = Ret "Not Rated")
  /\ (forall li, RatingSpec.nearest_parent "li" poster li ->
      (Bs4Spec.no_match RatingSpec.rating_indicator li ->
       extract_user_rating env poster = Ret "Not Rated")
      /\ (forall span,
            Bs4Spec.first_match RatingSpec.rating_indicator li span ->
            ((forall c, In c (Bs4.classes (Bs4.tag span)) ->
                        RatingSpec.passed_over env c) ->
             extract_user_rating env poster = Ret "Not Rated")
            /\ (forall before c after seg v,
                  Bs4.classes (Bs4.tag span) = before ++ c :: after ->
                  (forall c', In c' before -> RatingSpec.passed_over env c') ->
                  RatingSpec.encodes c seg ->
                  PyStr.int (int_max_str_digits env) seg = Some v ->
                  0 <= v
                  /\ (v <= 2 ^ 53 ->
                      extract_user_rating env poster
                      = Ret (NilZero.string_of_int (Z.to_int (v / 2))
                             +++ (if Z.even v then ".0" else ".5"))
                      /\ RatingSpec.numeral_of_half v
                           (NilZero.string_of_int (Z.to_int (v / 2))
                            +++ (if Z.even v then ".0" else ".5")))
                  /\ (2 ^ 53 < v ->
                      forall r,
                        float_str_big env v = Some r ->
                        extract_user_rating env poster = Ret r)))).
Proof.
  intros env poster. split; [| split].
  - apply RatingFacts.extract_user_rating_returns.
  - intro Hno. unfold extract_user_rating.
    now rewrite (RatingFacts.find_parent_none "li" poster Hno).
  - intros li Hli. unfold extract_user_rating.
    rewrite (RatingFacts.find_parent_nearest "li" poster li Hli). split.
    + intro Hno.
      now rewrite (Bs4Facts.find_no_match _ _ _
                     RatingFacts.decides_rating_indicator Hno).
    + intros span Hspan.
      rewrite (Bs4Facts.find_first_match _ _ _ _
                 RatingFacts.decides_rating_indicator Hspan).
      unfold Bs4.get_class. split.
      * intro Hall.
        rewrite <- (app_nil_r (Bs4.classes (Bs4.tag span))).
        now rewrite (RatingFacts.rated_loop_pass env _ [] Hall).
      * intros before c after seg v Hcls Hbefore Hseg Hint.
        rewrite Hcls, (RatingFacts.rated_loop_pass env before _ Hbefore).
        assert (H0 : 0 <= v).
        { apply (FieldFacts.int_nonneg (int_max_str_digits env) seg);
            [| exact Hint].
          destruct Hseg as (rest & _ & Hdash & _). exact Hdash. }
        split; [exact H0 |]. split.
        -- intro H53. split; [| apply numeral_of_half_printed].
           now rewrite (RatingFacts.rated_loop_hit env c after seg v _ Hseg Hint
                          (RatingFacts.str_half_exact _ v (conj H0 H53))).
        -- intros Hbig r Hr.
           assert (Hstr : PyStr.str_half (float_str_big env) v = Some r)
             by now rewrite RatingFacts.str_half_beyond.
           now rewrite (RatingFacts.rated_loop_hit env c after seg v r Hseg Hint
                          Hstr).
Qed.

(** The rating of the sample poster, through the theorem: the nearest
    list item, its first rating span, and the token [rated-7], whose 7
    gives the numeral 3.5. *)
Lemma extract_user_rating_seven :
  extract_user_rating (serving rated_page)
    (poster_of ["rating"; "-micro"; "rated-7"]) = Ret "3.5".
Proof.
  destruct (extract_user_rating_decodes (serving rated_page)
              (poster_of ["rating"; "-micro"; "rated-7"])) as (_ & _ & Hli).
  destruct (Hli (item_of ["rating"; "-micro"; "rated-7"])) as [_ Hspan].
  { exists []. repeat split. intros t []. }
  destruct (Hspan (span_of ["rating"; "-micro"; "rated-7"])) as [_ Htoken].
  { exists [poster_of ["rating"; "-micro"; "rated-7"];
            viewingdata_of ["rating"; "-micro"; "rated-7"]], [].
    split; [reflexivity |]. split.
    - split; [reflexivity |]. exists "rated-7". split; [| reflexivity].
      simpl. auto.
    - intros y [<- | [<- | []]]; intros [Hname _]; discriminate. }
  destruct (Htoken ["rating"; "-micro"] "rated-7" [] "7" 7) as (_ & Hexact & _).
  - reflexivity.
  - intros c' [<- | [<- | []]] seg (rest & Heq & _); discriminate.
  - exists "". repeat split. now left.
  - reflexivity.
  - apply Hexact. vm_compute. discriminate.
Defined.

(** Token values 8 and 0 give 4.0 and 0.0; a token beyond 2^53 is passed
    over in a world where its division raises. *)
Example rated_8 :
  extract_user_rating (serving rated_page) (poster_of ["rated-8"]) = Ret "4.0".
Proof. vm_compute. reflexivity. Qed.

Example rated_0 :
  extract_user_rating (serving rated_page) (poster_of ["rated-0"]) = Ret "0.0".
Proof. vm_compute. reflexivity. Qed.

Example rated_overflow_then_7 :
  extract_user_rating (serving rated_page)
    (poster_of ["rated-99999999999999999999"; "rated-7"]) = Ret "3.5".
Proof. vm_compute. reflexivity. Qed.
